(** * repo2docker: composable buildpack, docker CLI adapter and command line

    A shallow embedding of

    - [repo2docker/buildpacks/composable.py] ([ComposableBuildPack]),
    - [repo2docker/docker_utils.py] ([DockerCLI.build]),
    - [repo2docker/__main__.py] ([MimicDockerEnvHandling], [make_r2d]),

    followed by the properties of these functions that the design
    document states.  Python dictionaries are finite maps ([gmap]),
    Python sets are finite sets ([gset]), lists are lists; an exception
    or a [sys.exit] is an explicit constructor of the result type. *)

From Stdlib Require Import ZArith Lia Ascii String.
From stdpp Require Import gmap strings list fin_maps.

Local Open Scope string_scope.
Local Open Scope list_scope.
Local Open Scope Z_scope.

(** ** Python results *)

Module Py.

(** The exceptions the embedded functions can raise. *)
Inductive exn :=
| NameError (name : string)
| ValueError (msg : string)
| TypeError (msg : string)
| ReadError                      (* tarfile.ReadError *)
| External (what : string).      (* raised inside a collaborator *)

(** Outcome of a call: a value, an exception, or [sys.exit(code)]. *)
Inductive result (A : Type) :=
| Ok (a : A)
| Raise (e : exn)
| SysExit (code : Z).
Arguments Ok {A} a.
Arguments Raise {A} e.
Arguments SysExit {A} code.

Definition bind {A B} (r : result A) (k : A -> result B) : result B :=
  match r with
  | Ok a => k a
  | Raise e => Raise e
  | SysExit c => SysExit c
  end.

(** Truth value of a list, a dictionary, a string ([if x:]). *)
Definition truthy_list {A} (l : list A) : bool :=
  match l with [] => false | _ :: _ => true end.

Definition truthy_dict (d : gmap string string) : bool :=
  negb (bool_decide (d = ∅)).

Definition truthy_str (s : string) : bool :=
  match s with EmptyString => false | String _ _ => true end.

(** [d.update(other)]: the entries of [other] replace those of [d]. *)
Definition update (d other : gmap string string) : gmap string string :=
  other ∪ d.

End Py.

#[global] Instance result_bind : MBind Py.result := fun A B k r => Py.bind r k.
#[global] Instance result_ret : MRet Py.result := fun A a => Py.Ok a.

(** ** [buildpacks/composable.py] *)

Module Composable.
Import Py.

(** The class objects the module imports. *)
Inductive cls :=
| BuildPack | BaseImage | PythonBuildPack | PipfileBuildPack
| CondaBuildPack | JuliaProjectTomlBuildPack | JuliaRequireBuildPack
| DockerBuildPack | LegacyBinderDockerBuildPack | RBuildPack
| NixBuildPack.

#[global] Instance cls_eq_dec : EqDecision cls.
Proof. solve_decision. Defined.

(** Names bound at module level: the imports and the class itself. *)
Definition module_globals : list string :=
  [ "BuildPack"; "BaseImage"; "PythonBuildPack"; "PipfileBuildPack";
    "CondaBuildPack"; "JuliaProjectTomlBuildPack"; "JuliaRequireBuildPack";
    "DockerBuildPack"; "LegacyBinderDockerBuildPack"; "RBuildPack";
    "NixBuildPack"; "ComposableBuildPack" ].

(** Names assigned inside [detect] (its parameter and loop targets). *)
Definition detect_locals : list string :=
  [ "self"; "buildpack"; "buildpack_class" ].

(** Builtins that [detect] refers to. *)
Definition builtins : list string := [ "sorted"; "set"; "print"; "str" ].

(** Loading a name inside [detect]: local, then global, then builtin. *)
Definition load_name (n : string) : result unit :=
  if bool_decide (n ∈ detect_locals ++ module_globals ++ builtins)
  then Ok tt else Raise (NameError n).

(** An element of [self.buildpacks]: a class object (appended by the
    detection loop) or an instance (after line 27). *)
Inductive entry :=
| ClassObject (c : cls)
| InstanceOf (c : cls).

(** The list literal iterated by [detect], line 18. *)
Definition catalog : list cls :=
  [ BaseImage; CondaBuildPack; PythonBuildPack; RBuildPack;
    JuliaProjectTomlBuildPack ].

Section Detect.
(** [buildpack().detect()] for each class, on the repository at hand. *)
Variable detects : cls -> bool.

(** Lines 18-24.  The first class that detects is appended; the
    [while] condition on line 22 then loads the name [buidpack]. *)
Fixpoint detect_loop (classes : list cls) (buildpacks : list entry)
  : list entry * result unit :=
  match classes with
  | [] => (buildpacks, Ok tt)
  | buildpack :: rest =>
      if detects buildpack then
        let buildpacks := buildpacks ++ [ClassObject buildpack] in
        match load_name "buidpack" with
        | Ok _ =>
            (* not reached: [buidpack] is bound nowhere *)
            detect_loop rest buildpacks
        | Raise e => (buildpacks, Raise e)
        | SysExit c => (buildpacks, SysExit c)
        end
      else detect_loop rest buildpacks
  end.

(** [ComposableBuildPack.detect], lines 17-32: the new value of
    [self.buildpacks] and the result of the call. *)
Definition detect (buildpacks : list entry) : list entry * result bool :=
  match detect_loop catalog buildpacks with
  | (buildpacks, Ok _) =>
      if truthy_list buildpacks then
        (* line 26: [set(self.buildpacks)] is built, then the key
           expression loads the name [operator] *)
        match load_name "operator" with
        | Ok _ => (buildpacks, Ok true)
        | Raise e => (buildpacks, Raise e)
        | SysExit c => (buildpacks, SysExit c)
        end
      else
        (* lines 29-32: the print loop runs over an empty list *)
        (buildpacks, Ok true)
  | (buildpacks, Raise e) => (buildpacks, Raise e)
  | (buildpacks, SysExit c) => (buildpacks, SysExit c)
  end.
End Detect.

(** [ComposableBuildPack.__init__]: [self.buildpacks = []]. *)
Definition init : list entry := [].

(** What one buildpack instance returns from its getters. *)
Record BuildPackI := {
  bp_packages : gset string;
  bp_base_packages : gset string;
  bp_build_env : list (string * string);
  bp_env : list (string * string);
  bp_path : list string;
  bp_build_script_files : gmap string string;
  bp_build_scripts : list (string * string);
  bp_preassemble_script_files : gmap string string;
  bp_preassemble_scripts : list (string * string);
  bp_assemble_scripts : list (string * string);
  bp_post_build_scripts : list (string * string)
}.

(** The three loop shapes of lines 34-98, accumulator first, as the
    [for] loops run. *)
Definition merge_sets (f : BuildPackI -> gset string)
    (buildpacks : list BuildPackI) : gset string :=
  fold_left (fun packages buildpack => packages ∪ f buildpack) buildpacks ∅.

Definition merge_lists {A} (f : BuildPackI -> list A)
    (buildpacks : list BuildPackI) : list A :=
  fold_left (fun env buildpack => env ++ f buildpack) buildpacks [].

Definition merge_dicts (f : BuildPackI -> gmap string string)
    (buildpacks : list BuildPackI) : gmap string string :=
  fold_left (fun scripts buildpack => update scripts (f buildpack)) buildpacks ∅.

Definition get_packages := merge_sets bp_packages.
Definition get_base_packages := merge_sets bp_base_packages.
Definition get_build_env := merge_lists bp_build_env.
Definition get_env := merge_lists bp_env.
Definition get_path := merge_lists bp_path.
Definition get_build_script_files := merge_dicts bp_build_script_files.
Definition get_build_scripts := merge_lists bp_build_scripts.
Definition get_preassemble_script_files := merge_dicts bp_preassemble_script_files.
Definition get_preassemble_scripts := merge_lists bp_preassemble_scripts.
Definition get_assemble_scripts := merge_lists bp_assemble_scripts.
Definition get_post_build_scripts := merge_lists bp_post_build_scripts.

End Composable.

(** ** [docker_utils.py] *)

Module DockerUtils.
Import Py.

(** The dictionaries the generator yields: [{"stream": line}] and
    [{"error": line}]. *)
Inductive event :=
| Stream (line : string)
| Error (line : string).

(** The [fileobj] argument: absent, or an archive that [tarfile] can
    or cannot read. *)
Inductive fileobj :=
| NoFileobj
| Tar (readable : bool).

(** The child process as the read loop meets it: the lines it writes
    on its combined output, how many times [p.poll()] still answers
    [None] (the child runs beside the reader, so any number is
    possible), and its exit status. *)
Record child := {
  output : list string;
  polls_running : nat;
  returncode : Z
}.

(** [p.stdout.readline()]: the next line, or [""] at end of file. *)
Definition readline (pipe : list string) : string * list string :=
  match pipe with
  | [] => ("", [])
  | line :: pipe => (line, pipe)
  end.

(** *** The command line of [DockerCLI.build], lines 36-68 *)

(** Truth value of an argument that is [None] or a list. *)
Definition truthy_opt_list {A} (o : option (list A)) : bool :=
  match o with
  | Some l => truthy_list l
  | None => false
  end.

(** A value stored in the [container_limits] dictionary. *)
Inductive limit :=
| LimitStr (s : string)
| LimitInt (n : Z).

(** The keyword arguments that reach the command line.  [buildargs] is
    a dictionary read in insertion order by [.items()]. *)
Record build_kwargs := {
  tag : option string;
  buildargs : option (list (string * string));
  forcerm : bool;
  rm : bool;
  container_limits : option (gmap string limit);
  cache_from : option (list string)
}.

(** The string built on lines 36-68; [None] stands for the [TypeError]
    of [str + int] on line 61. *)
Definition build_cmd (kw : build_kwargs) (tempdir : string) : option string :=
  let build_cmd := "docker build --progress plain" in
  let build_cmd :=
    match tag kw with
    | Some tag => build_cmd +:+ " --tag " +:+ tag
    | None => build_cmd
    end in
  let build_cmd :=
    match buildargs kw with
    | Some items =>
        fold_left
          (fun build_cmd '(key, value) =>
             build_cmd +:+ " --build-arg " +:+ key +:+ "=" +:+ value)
          items build_cmd
    | None => build_cmd
    end in
  let build_cmd := if forcerm kw then build_cmd +:+ " --force-rm" else build_cmd in
  let build_cmd := if rm kw then build_cmd +:+ " --rm" else build_cmd in
  build_cmd ←
    match container_limits kw with
    | Some limits =>
        match limits !! "memlimit" with
        | Some (LimitStr memlimit) => Some (build_cmd +:+ " --memory " +:+ memlimit)
        | Some (LimitInt _) => None
        | None => Some build_cmd
        end
    | None => Some build_cmd
    end;
  let build_cmd :=
    if truthy_opt_list (cache_from kw) then
      fold_left (fun build_cmd cache => build_cmd +:+ " " +:+ cache)
        (default [] (cache_from kw)) (build_cmd +:+ " --cache-from")
    else build_cmd in
  Some (build_cmd +:+ " " +:+ tempdir).

(** *** The generator of [DockerCLI.build], lines 41-45 and 70-90 *)

(** Where the generator is suspended. *)
Inductive frame :=
| Start                                          (* body not entered yet *)
| AtStream (pipe : list string) (running : nat)  (* at the yield of line 84 *)
| AtError                                        (* at the yield of line 88 *)
| Finished.                                      (* returned, raised or closed *)

(** What [next(gen)] gives the consumer. *)
Inductive step :=
| Yield (e : event)
| StopIteration
| Raised (e : exn).

(** [d] is the directory [root] or a path beneath it. *)
Definition beneath (root d : string) : bool :=
  String.eqb d root || String.prefix (root +:+ "/") d.

Section Build.
(** The path [tempfile.mkdtemp()] returns for this call. *)
Variable tempdir : string.
Variable fobj : fileobj.
(** The directories held by the archive, as paths relative to its
    root and inside it. *)
Variable members : list string.
Variable kw : build_kwargs.
Variable p : child.

(** [tempfile.mkdtemp()], [tar.extractall(tempdir)] and
    [shutil.rmtree(tempdir)] on the set of directories that exist. *)
Definition mkdtemp (fs : gset string) : gset string :=
  fs ∪ {[tempdir]}.

Definition extractall (fs : gset string) : gset string :=
  match fobj with
  | Tar true => fs ∪ list_to_set ((fun m => tempdir +:+ "/" +:+ m) <$> members)
  | _ => fs
  end.

Definition rmtree (fs : gset string) : gset string :=
  filter (fun d => beneath tempdir d = false) fs.

(** Lines 80-90, from the top of the [while True] body; [fs] is the
    set of directories that exist. *)
Definition loop_iteration (pipe : list string) (running : nat)
    (fs : gset string) : frame * gset string * step :=
  let '(line, pipe) := readline pipe in
  match running with
  | O =>
      (* [p.poll() is not None]: break; then [rc = p.poll()] *)
      if bool_decide (returncode p ≠ 0)
      then (AtError, fs, Yield (Error line))
      else (Finished, rmtree fs, StopIteration)
  | S running => (AtStream pipe running, fs, Yield (Stream line))
  end.

(** [next(gen)].  The first call runs the body from line 36: the
    directory is made, the archive is extracted into it, the rest of
    the command line is put together and the child is started. *)
Definition next (fr : frame) (fs : gset string)
  : frame * gset string * step :=
  match fr with
  | Start =>
      let fs := mkdtemp fs in
      match fobj with
      | Tar false => (Finished, fs, Raised ReadError)
      | _ =>
          let fs := extractall fs in
          match build_cmd kw tempdir with
          | None =>
              (Finished, fs, Raised (TypeError "can only concatenate str to str"))
          | Some _ => loop_iteration (output p) (polls_running p) fs
          end
      end
  | AtStream pipe running => loop_iteration pipe running fs
  | AtError => (Finished, rmtree fs, StopIteration)
  | Finished => (Finished, fs, StopIteration)
  end.

(** [gen.close()], also what happens when an abandoned generator is
    collected: [GeneratorExit] is raised at the pending [yield],
    the [with] block is left, and the exception leaves the body;
    line 90 is not executed. *)
Definition close (fr : frame) (fs : gset string) : frame * gset string :=
  (Finished, fs).

(** How a consumer's loop over the generator ended. *)
Inductive ending :=
| Exhausted                (* the generator returned *)
| Abandoned                (* the consumer stopped and the generator was closed *)
| Failed (e : exn).        (* the generator raised *)

(** A consumer that takes at most [n] events and then leaves its
    loop: the events it received, the directories left, and how the
    iteration ended. *)
Fixpoint consume (n : nat) (fr : frame) (fs : gset string)
  : list event * gset string * ending :=
  match n with
  | O => let '(_, fs) := close fr fs in ([], fs, Abandoned)
  | S n =>
      match next fr fs with
      | (fr, fs, Yield e) =>
          let '(evs, fs, how) := consume n fr fs in (e :: evs, fs, how)
      | (_, fs, StopIteration) => ([], fs, Exhausted)
      | (_, fs, Raised e) => ([], fs, Failed e)
      end
  end.

(** A consumer that never leaves its loop early: [for l in build(...)].
    The generator yields at most [polls_running p + 1] events. *)
Definition drain (fs : gset string) : list event * gset string * ending :=
  consume (S (S (polls_running p))) Start fs.

(** The lines carried by the [{"stream": line}] events of a loop
    that starts with [pipe] still to read. *)
Fixpoint stream_lines (pipe : list string) (running : nat) : list string :=
  match running with
  | O => []
  | S running =>
      let '(line, pipe) := readline pipe in
      line :: stream_lines pipe running
  end.

(** The value of [line] when the loop is left. *)
Fixpoint line_at_break (pipe : list string) (running : nat) : string :=
  let '(line, pipe) := readline pipe in
  match running with
  | O => line
  | S running => line_at_break pipe running
  end.
End Build.

(** The events that follow the progress events of a drained stream:
    one error event for a non-zero exit status, nothing otherwise. *)
Definition terminal_events (p : child) (pipe : list string) (running : nat)
  : list event :=
  if bool_decide (returncode p ≠ 0)
  then [Error (line_at_break pipe running)] else [].

Definition is_error (e : event) : bool :=
  match e with Error _ => true | Stream _ => false end.

(** [x] occurs in [s] as a substring; [s] starts, ends with [x]. *)
Definition occurs_in (x s : string) : Prop :=
  exists before after, s = before +:+ x +:+ after.

Definition starts_with (x s : string) : Prop :=
  exists after, s = x +:+ after.

Definition ends_with (x s : string) : Prop :=
  exists before, s = before +:+ x.

End DockerUtils.

(** ** [__main__.py] *)

Module Main.
Import Py.

(** *** String methods used by the module *)

(** [sep in s] for a one-character [sep]. *)
Fixpoint contains (sep : ascii) (s : string) : bool :=
  match s with
  | EmptyString => false
  | String c s => if Ascii.eqb c sep then true else contains sep s
  end.

(** [s.partition(sep)], without the middle component. *)
Fixpoint partition (sep : ascii) (s : string) : string * string :=
  match s with
  | EmptyString => ("", "")
  | String c s =>
      if Ascii.eqb c sep then ("", s)
      else let '(key, val) := partition sep s in (String c key, val)
  end.

(** [s.split(sep)]. *)
Fixpoint split (sep : ascii) (s : string) : list string :=
  match s with
  | EmptyString => [""]
  | String c s =>
      if Ascii.eqb c sep then "" :: split sep s
      else match split sep s with
           | [] => [String c ""]
           | head :: tail => String c head :: tail
           end
  end.

Definition is_digit (c : ascii) : bool :=
  let n := Ascii.N_of_ascii c in (48 <=? n)%N && (n <=? 57)%N.

(** [s.isnumeric()] and [int(s)] as they behave on ASCII text: a
    non-empty string of decimal digits, and its value.  On other text
    the two built-ins follow the Unicode tables ([isnumeric] accepts
    characters that [int] refuses); [make_r2d] below takes them as
    collaborators, and the examples use these two. *)
Definition ascii_isnumeric (s : string) : bool :=
  truthy_str s && forallb is_digit (list_ascii_of_string s).

Definition ascii_int (s : string) : result Z :=
  Ok (fold_left (fun n c => 10 * n + (Z.of_N (Ascii.N_of_ascii c) - 48))
        (list_ascii_of_string s) 0).

(** *** [MimicDockerEnvHandling.__call__]

    [environ] is [os.environ], [dest] the list stored in the
    namespace under [self.dest]; the result is that list after the
    call. *)
Definition MimicDockerEnvHandling (environ : gmap string string)
    (dest : list string) (values : string) : list string :=
  if negb (contains "="%char values) then
    match environ !! values with
    | Some v => dest ++ [values +:+ "=" +:+ v]
    | None => dest                    (* KeyError: return *)
    end
  else dest ++ [values].

(** The [environment] attribute after argparse has called the action
    once per [--env] occurrence, starting from [default=[]]. *)
Definition parse_environment (environ : gmap string string)
    (occurrences : list string) : list string :=
  fold_left (MimicDockerEnvHandling environ) occurrences [].

(** *** The parsed command line *)

Module Args.
Record t := {
  config : string;
  json_logs : bool;
  repo : string;
  image_name : option string;
  ref : option string;
  debug : bool;
  build : bool;
  build_memory_limit : option string;
  cmd : list string;
  run : bool;
  ports : option (list string);
  all_ports : bool;
  clean : bool;
  push : bool;
  volumes : list string;
  user_id : option Z;
  user_name : option string;
  environment : list string;
  editable : bool;
  target_repo_dir : option string;
  appendix : option string;
  labels : list string;
  build_args : list string;
  subdir : option string;
  cache_from : list string;
  engine : option string
}.
End Args.

(** Truth value of an optional string, integer, list argument. *)
Definition given_str (o : option string) : option string :=
  match o with
  | Some s => if truthy_str s then Some s else None
  | None => None
  end.

Definition given_int (o : option Z) : option Z :=
  match o with
  | Some n => if n =? 0 then None else Some n
  | None => None
  end.

Definition truthy_opt_list {A} (o : option (list A)) : bool :=
  match o with
  | Some l => truthy_list l
  | None => false
  end.

(** *** The application object *)

Inductive memory_limit :=
| Unlimited
| Bytes (n : Z)
| Text (s : string).

Definition DEBUG : Z := 10.

Record Repo2Docker := {
  log_level : Z;
  appendix : string;
  labels : gmap string string;
  extra_build_args : gmap string string;
  repo : string;
  ref : option string;
  volumes : gmap string string;
  output_image_spec : string;
  json_logs : bool;
  dry_run : bool;
  run : bool;
  push : bool;
  run_cmd : list string;
  ports : list (string * string);
  all_ports : bool;
  user_id : Z;
  user_name : string;
  build_memory_limit : memory_limit;
  subdir : string;
  cache_from : list string;
  engine : string;
  environment : list string;
  cleanup_checkout : bool;
  target_repo_dir : string
}.

Definition set_log_level (level : Z) (r : Repo2Docker) : Repo2Docker :=
  {| log_level := level; appendix := appendix r; labels := labels r;
     extra_build_args := extra_build_args r; repo := repo r; ref := ref r;
     volumes := volumes r; output_image_spec := output_image_spec r;
     json_logs := json_logs r; dry_run := dry_run r; run := run r;
     push := push r; run_cmd := run_cmd r; ports := ports r;
     all_ports := all_ports r; user_id := user_id r;
     user_name := user_name r; build_memory_limit := build_memory_limit r;
     subdir := subdir r; cache_from := cache_from r; engine := engine r;
     environment := environment r; cleanup_checkout := cleanup_checkout r;
     target_repo_dir := target_repo_dir r |}.

(** Lines 265-271: [d[key] = val] for every [name=value] argument. *)
Definition add_pairs (items : list string) (d : gmap string string)
  : gmap string string :=
  fold_left (fun d l => let '(key, val) := partition "="%char l in <[key:=val]> d)
    items d.

(** Lines 319-321: [src, dest = v.split(":")]; [r2d.volumes[src] = dest]. *)
Fixpoint add_volumes (vs : list string) (d : gmap string string)
  : result (gmap string string) :=
  match vs with
  | [] => Ok d
  | v :: vs =>
      match split ":"%char v with
      | [src; dest] => add_volumes vs (<[src:=dest]> d)
      | [_] => Raise (ValueError "not enough values to unpack")
      | _ => Raise (ValueError "too many values to unpack")
      end
  end.

(** Every [-v] argument has the form [src:dest]. *)
Definition well_formed_volumes (vs : list string) : Prop :=
  Forall (fun v => exists src dest, split ":"%char v = [src; dest]) vs.

(** A check that prints its message and calls [sys.exit(1)]. *)
Definition exit_if (violated : bool) : result unit :=
  if violated then SysExit 1 else Ok tt.

Section MakeR2D.
(** The collaborators: the file system, the freshly constructed
    application object, its configuration loader and the port
    parser of [utils]. *)
Variable isdir : string -> bool.
Variable exists_ : string -> bool.
Variable abspath : string -> string.
Variable new_Repo2Docker : Repo2Docker.
Variable load_config_file : string -> Repo2Docker -> result Repo2Docker.
Variable validate_and_generate_port_mapping :
  option (list string) -> result (list (string * string)).
(** The built-ins [str.isnumeric] and [int] of lines 365-366; [int]
    raises [ValueError] on text it cannot read. *)
Variable isnumeric : string -> bool.
Variable int : string -> result Z.

(** [make_r2d], lines 244-395.  [version_in_argv] is the test
    ["--version" in argv]; [args] the namespace [parse_args] returns. *)
Definition make_r2d (version_in_argv : bool) (args : Args.t)
  : result Repo2Docker :=
  if version_in_argv then SysExit 0 else
  let r2d :=
    if Args.debug args then set_log_level DEBUG new_Repo2Docker
    else new_Repo2Docker in
  r2d ← load_config_file (Args.config args) r2d;
  let appendix' := default (appendix r2d) (given_str (Args.appendix args)) in
  let labels' := add_pairs (Args.labels args) (labels r2d) in
  let extra_build_args' :=
    add_pairs (Args.build_args args) (extra_build_args r2d) in
  (* lines 278-291 *)
  volumes' ←
    (if Args.editable args then
       if isdir (Args.repo args)
       then Ok (<[abspath (Args.repo args) := "."]> (volumes r2d))
       else SysExit 1
     else Ok (volumes r2d));
  let output_image_spec' := default "" (given_str (Args.image_name args)) in
  let dry_run' := negb (Args.build args) in
  let run' := if dry_run' then false else Args.run args in
  let push' := if dry_run' then false else Args.push args in
  (* lines 314-317 *)
  _ ← exit_if (truthy_dict volumes' && negb run');
  volumes' ← add_volumes (Args.volumes args) volumes';
  let run_cmd' := Args.cmd args in
  (* lines 325-342 *)
  _ ← exit_if (Args.all_ports args && negb run');
  _ ← exit_if (truthy_opt_list (Args.ports args) && negb run');
  _ ← exit_if (truthy_opt_list (Args.ports args) && negb (truthy_list run_cmd'));
  ports' ← validate_and_generate_port_mapping (Args.ports args);
  (* lines 347-360 *)
  let user_id' := default (user_id r2d) (given_int (Args.user_id args)) in
  let user_name' := default (user_name r2d) (given_str (Args.user_name args)) in
  _ ← exit_if ((user_id' =? 0) && negb dry_run');
  (* lines 362-368 *)
  build_memory_limit' ←
    match given_str (Args.build_memory_limit args) with
    | Some s => if isnumeric s then n ← int s; mret (Bytes n) else mret (Text s)
    | None => mret (build_memory_limit r2d)
    end;
  (* lines 370-372 *)
  _ ← exit_if (truthy_list (Args.environment args) && negb run');
  mret
    {| log_level := log_level r2d;
       appendix := appendix';
       labels := labels';
       extra_build_args := extra_build_args';
       repo := Args.repo args;
       ref := Args.ref args;
       volumes := volumes';
       output_image_spec := output_image_spec';
       json_logs := Args.json_logs args;
       dry_run := dry_run';
       run := run';
       push := push';
       run_cmd := run_cmd';
       ports := ports';
       all_ports := Args.all_ports args;
       user_id := user_id';
       user_name := user_name';
       build_memory_limit := build_memory_limit';
       subdir := default (subdir r2d) (given_str (Args.subdir args));
       cache_from :=
         if truthy_list (Args.cache_from args) then Args.cache_from args
         else cache_from r2d;
       engine := default (engine r2d) (given_str (Args.engine args));
       environment := Args.environment args;
       cleanup_checkout :=
         if exists_ (Args.repo args) then false else Args.clean args;
       target_repo_dir :=
         default (target_repo_dir r2d) (given_str (Args.target_repo_dir args))
    |}.

(** [main], lines 398-400: [r2d.initialize()], the first call that
    can reach the container engine, runs only when [make_r2d]
    returned. *)
Definition reaches_initialize (version_in_argv : bool) (args : Args.t)
  : bool :=
  match make_r2d version_in_argv args with
  | Ok _ => true
  | _ => false
  end.
End MakeR2D.

(** *** [main], lines 398-412 *)

(** The two exceptions [main] catches. *)
Inductive engine_error :=
| BuildError
| ImageLoadError.

(** The methods of the application object that [main] calls. *)
Inductive call :=
| Initialize
| Start.

Section MainFunction.
Variable isdir : string -> bool.
Variable exists_ : string -> bool.
Variable abspath : string -> string.
Variable new_Repo2Docker : Repo2Docker.
Variable load_config_file : string -> Repo2Docker -> result Repo2Docker.
Variable validate_and_generate_port_mapping :
  option (list string) -> result (list (string * string)).
Variable isnumeric : string -> bool.
Variable int : string -> result Z.
(** [r2d.initialize()] and [r2d.start()]; [inl] is one of the two
    exceptions caught on lines 403-412. *)
Variable initialize : Repo2Docker -> result Repo2Docker.
Variable start : Repo2Docker -> engine_error + result unit.

(** The methods called, in order, and how the process ends: [Ok] when
    [main] returns, [SysExit] on [sys.exit], [Raise] when an exception
    leaves [main]. *)
Definition main (version_in_argv : bool) (args : Args.t)
  : list call * result unit :=
  match make_r2d isdir exists_ abspath new_Repo2Docker load_config_file
          validate_and_generate_port_mapping isnumeric int
          version_in_argv args with
  | Ok r2d =>
      match initialize r2d with
      | Ok r2d =>
          match start r2d with
          | inl _ => ([Initialize; Start], SysExit 1)
          | inr r => ([Initialize; Start], r)
          end
      | Raise e => ([Initialize], Raise e)
      | SysExit code => ([Initialize], SysExit code)
      end
  | Raise e => ([], Raise e)
  | SysExit code => ([], SysExit code)
  end.
End MainFunction.

(** The exit status of the interpreter: 0 when [main] returns, the
    argument of [sys.exit], 1 for an uncaught exception. *)
Definition exit_status (r : result unit) : Z :=
  match r with
  | Ok _ => 0
  | SysExit code => code
  | Raise _ => 1
  end.

End Main.

(** ** Reference definitions

    These follow the wording of the design document, not the code; the
    theorems compare the code above with them. *)

Module Reference.
Import Composable.

(** "Last writer wins": the value under [k] in the last dictionary of
    [ds] that has the key. *)
Fixpoint last_writer (ds : list (gmap string string)) (k : string)
  : option string :=
  match ds with
  | [] => None
  | d :: ds =>
      match last_writer ds k with
      | Some v => Some v
      | None => d !! k
      end
  end.

Section Compose.
Variable detects : cls -> bool.
(** [__bases__[0]] and [_order] of each class. *)
Variable first_base : cls -> cls.
Variable priority : cls -> Z.

(** The ancestors of a variant, nearest first, up to [BuildPack]. *)
Fixpoint ancestors (depth : nat) (c : cls) : list cls :=
  match depth with
  | O => []
  | S depth =>
      let b := first_base c in
      if decide (b = BuildPack) then [] else b :: ancestors depth b
  end.

(** Step 2: every detecting variant, followed by its ancestors. *)
Definition selected : list cls :=
  flat_map (fun c => if detects c then c :: ancestors 11 c else []) catalog.

(** Step 3: one occurrence per variant, the first one. *)
Fixpoint dedup (l : list cls) : list cls :=
  match l with
  | [] => []
  | c :: l => c :: filter (fun d => d ≠ c) (dedup l)
  end.

(** Step 4: stable sort by priority, ascending. *)
Fixpoint insert_by_priority (c : cls) (l : list cls) : list cls :=
  match l with
  | [] => [c]
  | d :: l' =>
      if priority c <=? priority d then c :: l
      else d :: insert_by_priority c l'
  end.

Definition compose : list cls :=
  foldr insert_by_priority [] (dedup selected).
End Compose.

End Reference.

(** ** Inputs used in the examples *)

Module Examples.
Import Py.

(** A class layout in which every catalog variant extends the one
    before it, with priorities in catalog order. *)
Definition first_base (c : Composable.cls) : Composable.cls :=
  match c with
  | Composable.CondaBuildPack => Composable.BaseImage
  | Composable.PythonBuildPack => Composable.CondaBuildPack
  | Composable.RBuildPack => Composable.PythonBuildPack
  | Composable.JuliaProjectTomlBuildPack => Composable.PythonBuildPack
  | _ => Composable.BuildPack
  end.

Definition priority (c : Composable.cls) : Z :=
  match c with
  | Composable.BaseImage => 0
  | Composable.CondaBuildPack => 1
  | Composable.PythonBuildPack => 2
  | Composable.RBuildPack => 3
  | Composable.JuliaProjectTomlBuildPack => 3
  | _ => 10
  end.

(** A repository with no recognised file at all. *)
Definition empty_repository (c : Composable.cls) : bool := false.

(** A repository with an [environment.yml] only. *)
Definition conda_repository (c : Composable.cls) : bool :=
  bool_decide (c = Composable.CondaBuildPack).

(** A repository where the base image and the conda variant apply. *)
Definition base_and_conda_repository (c : Composable.cls) : bool :=
  bool_decide (c = Composable.BaseImage)
  || bool_decide (c = Composable.CondaBuildPack).

(** A build that prints two lines and has exited by the time the
    reader first polls it. *)
Definition quick_build : DockerUtils.child :=
  {| DockerUtils.output := ["Step 1/2 : FROM base"; "Step 2/2 : RUN true"];
     DockerUtils.polls_running := 0;
     DockerUtils.returncode := 0 |}.

(** A build whose two lines are each read while it is still running. *)
Definition slow_build (rc : Z) : DockerUtils.child :=
  {| DockerUtils.output := ["Step 1/2 : FROM base"; "Step 2/2 : RUN false"];
     DockerUtils.polls_running := 2;
     DockerUtils.returncode := rc |}.

(** The namespace argparse returns for [repo2docker <repo>]. *)
Definition default_args (repo : string) : Main.Args.t :=
  {| Main.Args.config := "repo2docker_config.py";
     Main.Args.json_logs := false;
     Main.Args.repo := repo;
     Main.Args.image_name := None;
     Main.Args.ref := None;
     Main.Args.debug := false;
     Main.Args.build := true;
     Main.Args.build_memory_limit := None;
     Main.Args.cmd := [];
     Main.Args.run := true;
     Main.Args.ports := None;
     Main.Args.all_ports := false;
     Main.Args.clean := true;
     Main.Args.push := false;
     Main.Args.volumes := [];
     Main.Args.user_id := None;
     Main.Args.user_name := None;
     Main.Args.environment := [];
     Main.Args.editable := false;
     Main.Args.target_repo_dir := None;
     Main.Args.appendix := None;
     Main.Args.labels := [];
     Main.Args.build_args := [];
     Main.Args.subdir := None;
     Main.Args.cache_from := [];
     Main.Args.engine := None |}.

(** [repo2docker --no-run -v /data:/data .] *)
Definition no_run_with_volume : Main.Args.t :=
  let a := default_args "." in
  {| Main.Args.config := Main.Args.config a;
     Main.Args.json_logs := Main.Args.json_logs a;
     Main.Args.repo := Main.Args.repo a;
     Main.Args.image_name := Main.Args.image_name a;
     Main.Args.ref := Main.Args.ref a;
     Main.Args.debug := Main.Args.debug a;
     Main.Args.build := Main.Args.build a;
     Main.Args.build_memory_limit := Main.Args.build_memory_limit a;
     Main.Args.cmd := Main.Args.cmd a;
     Main.Args.run := false;
     Main.Args.ports := Main.Args.ports a;
     Main.Args.all_ports := Main.Args.all_ports a;
     Main.Args.clean := Main.Args.clean a;
     Main.Args.push := Main.Args.push a;
     Main.Args.volumes := ["/data:/data"];
     Main.Args.user_id := Main.Args.user_id a;
     Main.Args.user_name := Main.Args.user_name a;
     Main.Args.environment := Main.Args.environment a;
     Main.Args.editable := Main.Args.editable a;
     Main.Args.target_repo_dir := Main.Args.target_repo_dir a;
     Main.Args.appendix := Main.Args.appendix a;
     Main.Args.labels := Main.Args.labels a;
     Main.Args.build_args := Main.Args.build_args a;
     Main.Args.subdir := Main.Args.subdir a;
     Main.Args.cache_from := Main.Args.cache_from a;
     Main.Args.engine := Main.Args.engine a |}.

(** [repo2docker --user-id 0 .] *)
Definition user_id_zero : Main.Args.t :=
  let a := default_args "." in
  {| Main.Args.config := Main.Args.config a;
     Main.Args.json_logs := Main.Args.json_logs a;
     Main.Args.repo := Main.Args.repo a;
     Main.Args.image_name := Main.Args.image_name a;
     Main.Args.ref := Main.Args.ref a;
     Main.Args.debug := Main.Args.debug a;
     Main.Args.build := Main.Args.build a;
     Main.Args.build_memory_limit := Main.Args.build_memory_limit a;
     Main.Args.cmd := Main.Args.cmd a;
     Main.Args.run := Main.Args.run a;
     Main.Args.ports := Main.Args.ports a;
     Main.Args.all_ports := Main.Args.all_ports a;
     Main.Args.clean := Main.Args.clean a;
     Main.Args.push := Main.Args.push a;
     Main.Args.volumes := Main.Args.volumes a;
     Main.Args.user_id := Some 0;
     Main.Args.user_name := Main.Args.user_name a;
     Main.Args.environment := Main.Args.environment a;
     Main.Args.editable := Main.Args.editable a;
     Main.Args.target_repo_dir := Main.Args.target_repo_dir a;
     Main.Args.appendix := Main.Args.appendix a;
     Main.Args.labels := Main.Args.labels a;
     Main.Args.build_args := Main.Args.build_args a;
     Main.Args.subdir := Main.Args.subdir a;
     Main.Args.cache_from := Main.Args.cache_from a;
     Main.Args.engine := Main.Args.engine a |}.

(** The application object as constructed for a user with uid 1000
    and no configuration file. *)
Definition r2d_of_user_1000 : Main.Repo2Docker :=
  {| Main.log_level := 20;
     Main.appendix := "";
     Main.labels := ∅;
     Main.extra_build_args := ∅;
     Main.repo := "";
     Main.ref := None;
     Main.volumes := ∅;
     Main.output_image_spec := "";
     Main.json_logs := false;
     Main.dry_run := false;
     Main.run := false;
     Main.push := false;
     Main.run_cmd := [];
     Main.ports := [];
     Main.all_ports := false;
     Main.user_id := 1000;
     Main.user_name := "jovyan";
     Main.build_memory_limit := Main.Unlimited;
     Main.subdir := "";
     Main.cache_from := [];
     Main.engine := "docker";
     Main.environment := [];
     Main.cleanup_checkout := false;
     Main.target_repo_dir := "" |}.

(** Collaborators for the examples: the repository is a local
    directory, no configuration file changes the object, and no port
    is requested. *)
Definition local_dir (path : string) : bool := true.
Definition abspath (path : string) : string := "/work".
Definition no_config (file : string) (r : Main.Repo2Docker)
  : result Main.Repo2Docker := Ok r.
Definition no_ports (ports : option (list string))
  : result (list (string * string)) :=
  match ports with
  | None => Ok []
  | Some _ => Raise (External "validate_and_generate_port_mapping")
  end.

Definition make_r2d : bool -> Main.Args.t -> result Main.Repo2Docker :=
  Main.make_r2d local_dir local_dir abspath r2d_of_user_1000 no_config no_ports
    Main.ascii_isnumeric Main.ascii_int.

(** The namespace for a command line that sets the given options and
    leaves the others at their defaults. *)
Definition args_with (build run editable all_ports : bool)
    (ports : option (list string)) (volumes environment build_args cmd : list string)
  : Main.Args.t :=
  let a := default_args "." in
  {| Main.Args.config := Main.Args.config a;
     Main.Args.json_logs := Main.Args.json_logs a;
     Main.Args.repo := Main.Args.repo a;
     Main.Args.image_name := Main.Args.image_name a;
     Main.Args.ref := Main.Args.ref a;
     Main.Args.debug := Main.Args.debug a;
     Main.Args.build := build;
     Main.Args.build_memory_limit := Main.Args.build_memory_limit a;
     Main.Args.cmd := cmd;
     Main.Args.run := run;
     Main.Args.ports := ports;
     Main.Args.all_ports := all_ports;
     Main.Args.clean := Main.Args.clean a;
     Main.Args.push := Main.Args.push a;
     Main.Args.volumes := volumes;
     Main.Args.user_id := Main.Args.user_id a;
     Main.Args.user_name := Main.Args.user_name a;
     Main.Args.environment := environment;
     Main.Args.editable := editable;
     Main.Args.target_repo_dir := Main.Args.target_repo_dir a;
     Main.Args.appendix := Main.Args.appendix a;
     Main.Args.labels := Main.Args.labels a;
     Main.Args.build_args := build_args;
     Main.Args.subdir := Main.Args.subdir a;
     Main.Args.cache_from := Main.Args.cache_from a;
     Main.Args.engine := Main.Args.engine a |}.

(** A port parser that accepts every list and maps each port to itself. *)
Definition same_ports (ports : option (list string))
  : result (list (string * string)) :=
  Ok ((fun port => (port, port)) <$> default [] ports).

(** A repository that is not on the local file system. *)
Definition remote (path : string) : bool := false.

(** An engine whose [initialize] keeps the object and whose [start]
    fails with [BuildError]. *)
Definition initialize (r : Main.Repo2Docker) : result Main.Repo2Docker := Ok r.
Definition failing_start (r : Main.Repo2Docker)
  : Main.engine_error + result unit := inl Main.BuildError.

(** Keyword arguments of a build with a tag, two build arguments, a
    memory limit given as text and one cache source. *)
Definition tagged_build : DockerUtils.build_kwargs :=
  {| DockerUtils.tag := Some "r2d-test";
     DockerUtils.buildargs := Some [("NB_USER", "jovyan"); ("NB_UID", "1000")];
     DockerUtils.forcerm := true;
     DockerUtils.rm := true;
     DockerUtils.container_limits :=
       Some {["memlimit" := DockerUtils.LimitStr "1g"]};
     DockerUtils.cache_from := Some ["r2d-cache"] |}.

(** A build with no option at all, and one whose memory limit is
    given as a number of bytes. *)
Definition plain_build : DockerUtils.build_kwargs :=
  {| DockerUtils.tag := None;
     DockerUtils.buildargs := None;
     DockerUtils.forcerm := false;
     DockerUtils.rm := false;
     DockerUtils.container_limits := None;
     DockerUtils.cache_from := None |}.

Definition build_with_memlimit_bytes : DockerUtils.build_kwargs :=
  {| DockerUtils.tag := Some "r2d-test";
     DockerUtils.buildargs := None;
     DockerUtils.forcerm := false;
     DockerUtils.rm := false;
     DockerUtils.container_limits :=
       Some {["memlimit" := DockerUtils.LimitInt 1073741824]};
     DockerUtils.cache_from := None |}.

End Examples.

(** * Properties *)

(** ** Composition engine *)

Section ComposableFacts.
Import Py Composable.

Lemma load_name_buidpack : load_name "buidpack" = Raise (NameError "buidpack").
Proof. reflexivity. Qed.

Lemma load_name_operator : load_name "operator" = Raise (NameError "operator").
Proof. reflexivity. Qed.

Variable detects : cls -> bool.

(** When no class of the list detects, the loop leaves the list alone. *)
Lemma detect_loop_no_match classes buildpacks :
  (forall c, c ∈ classes -> detects c = false) ->
  detect_loop detects classes buildpacks = (buildpacks, Ok tt).
Proof.
  induction classes as [|c classes IH]; intros Hnone; cbn [detect_loop].
  - reflexivity.
  - rewrite (Hnone c) by apply list_elem_of_here.
    apply IH. intros d Hd. apply Hnone. by apply list_elem_of_further.
Qed.

(** When some class detects, the loop stops at the first such class
    with a [NameError], having appended that class only. *)
Lemma detect_loop_match classes buildpacks :
  (exists c, c ∈ classes /\ detects c = true) ->
  exists before c after,
    classes = before ++ c :: after
    /\ (forall d, d ∈ before -> detects d = false)
    /\ detects c = true
    /\ detect_loop detects classes buildpacks
       = (buildpacks ++ [ClassObject c], Raise (NameError "buidpack")).
Proof.
  induction classes as [|c classes IH]; intros (d & Hin & Hd).
  - by apply elem_of_nil in Hin.
  - destruct (detects c) eqn:Hc.
    + exists [], c, classes. cbn [detect_loop]. rewrite Hc, load_name_buidpack.
      repeat split; try done. intros ? H. by apply elem_of_nil in H.
    + assert (Hex : exists c', c' ∈ classes /\ detects c' = true).
      { exists d. split; [|done]. apply elem_of_cons in Hin as [->|]; [congruence|done]. }
      destruct (IH Hex) as (before & c' & after & -> & Hb & Hc' & Hloop).
      exists (c :: before), c', after. cbn [detect_loop]. rewrite Hc.
      repeat split; try done.
      intros x Hx. apply elem_of_cons in Hx as [->|Hx]; [done|by apply Hb].
Qed.

(** Whatever the state of the object, a repository in which some
    catalog class detects makes [detect] raise. *)
Lemma detect_raises_when_detected buildpacks :
  (exists c, c ∈ catalog /\ detects c = true) ->
  (detect detects buildpacks).2 = Raise (NameError "buidpack").
Proof.
  intros H. destruct (detect_loop_match catalog buildpacks H)
    as (before & c & after & _ & _ & _ & Hloop).
  unfold detect. by rewrite Hloop.
Qed.

(** [detect] returns only with an empty buildpack list. *)
Lemma detect_returns_empty buildpacks buildpacks' b :
  detect detects buildpacks = (buildpacks', Ok b) ->
  buildpacks' = [] /\ b = true.
Proof.
  unfold detect.
  destruct (detect_loop detects catalog buildpacks) as [bps [[]|e|code]] eqn:Hloop;
    [|discriminate..].
  destruct bps as [|x bps]; cbn [truthy_list].
  - intros [= <- <-]. done.
  - rewrite load_name_operator. discriminate.
Qed.
End ComposableFacts.

(** C1, as stated, fails: on a repository in which no catalog class
    detects, [detect] on a new object raises nothing. *)
Lemma detect_empty_repository_no_error :
  (forall c, c ∈ Composable.catalog -> Examples.empty_repository c = false)
  /\ ~ exists e,
       (Composable.detect Examples.empty_repository Composable.init).2
       = Py.Raise e.
Proof.
  split; [done|]. intros [e He]. vm_compute in He. discriminate.
Qed.

(** C1, amended: for every repository in which no catalog buildpack's
    [detect()] returns true, [detect] on a newly constructed composable
    buildpack raises no error: it returns [True] and leaves the
    buildpack list empty, so that every merged getter reads an empty
    collection. *)
Theorem detect_nothing_detected (detects : Composable.cls -> bool) :
  (forall c, c ∈ Composable.catalog -> detects c = false) ->
  Composable.detect detects Composable.init = ([], Py.Ok true)
  /\ Composable.get_packages [] = ∅
  /\ Composable.get_build_env [] = []
  /\ Composable.get_build_script_files [] = ∅.
Proof.
  intros Hnone. unfold Composable.detect.
  rewrite (detect_loop_no_match detects _ _ Hnone). done.
Qed.

Lemma detect_nothing_detected_witness :
  (forall c, c ∈ Composable.catalog -> Examples.empty_repository c = false)
  /\ Composable.detect Examples.empty_repository Composable.init
     = ([], Py.Ok true).
Proof.
  split; [reflexivity|].
  apply (detect_nothing_detected Examples.empty_repository). reflexivity.
Defined.

(** C2: on a repository where the base image and the conda variant both
    apply, the design document's composition is the ordered list
    [BaseImage; CondaBuildPack]; [detect] instead raises [NameError] on
    line 22 and leaves the class object [BaseImage], neither sorted nor
    instantiated, in [self.buildpacks]. *)
Theorem detect_base_and_conda_raises :
  Reference.compose Examples.base_and_conda_repository
    Examples.first_base Examples.priority
  = [Composable.BaseImage; Composable.CondaBuildPack]
  /\ Composable.detect Examples.base_and_conda_repository Composable.init
     = ([Composable.ClassObject Composable.BaseImage],
        Py.Raise (Py.NameError "buidpack")).
Proof. split; reflexivity. Qed.

(** C4: on a repository where only the conda variant applies, its
    ancestor [BaseImage] belongs to the composition of the design
    document; [detect] raises [NameError] when it evaluates the
    condition of the inheritance walk, and [BaseImage] is not in
    [self.buildpacks]. *)
Theorem detect_conda_no_ancestors :
  Reference.ancestors Examples.first_base 11 Composable.CondaBuildPack
  = [Composable.BaseImage]
  /\ Composable.detect Examples.conda_repository Composable.init
     = ([Composable.ClassObject Composable.CondaBuildPack],
        Py.Raise (Py.NameError "buidpack"))
  /\ Composable.ClassObject Composable.BaseImage
     ∉ (Composable.detect Examples.conda_repository Composable.init).1.
Proof.
  split; [reflexivity|]. split; [reflexivity|].
  intros H. vm_compute in H. apply list_elem_of_singleton in H. discriminate.
Qed.

(** ** Merged contract *)

Section MergeFacts.
Import Py Composable.

Lemma fold_union_acc (f : BuildPackI -> gset string) buildpacks acc :
  fold_left (fun packages buildpack => packages ∪ f buildpack) buildpacks acc
  = acc ∪ ⋃ (f <$> buildpacks).
Proof.
  revert acc. induction buildpacks as [|b buildpacks IH]; intros acc; simpl.
  - by rewrite (right_id_L ∅ (∪)).
  - rewrite IH. by rewrite (assoc_L (∪)).
Qed.

Lemma merge_sets_union f buildpacks :
  merge_sets f buildpacks = ⋃ (f <$> buildpacks).
Proof.
  unfold merge_sets. rewrite fold_union_acc. by rewrite (left_id_L ∅ (∪)).
Qed.

Lemma fold_app_acc {A} (f : BuildPackI -> list A) buildpacks acc :
  fold_left (fun env buildpack => env ++ f buildpack) buildpacks acc
  = acc ++ concat (f <$> buildpacks).
Proof.
  revert acc. induction buildpacks as [|b buildpacks IH]; intros acc; simpl.
  - by rewrite app_nil_r.
  - rewrite IH. by rewrite <- app_assoc.
Qed.

Lemma merge_lists_concat {A} (f : BuildPackI -> list A) buildpacks :
  merge_lists f buildpacks = concat (f <$> buildpacks).
Proof. unfold merge_lists. by rewrite fold_app_acc. Qed.

Lemma lookup_update (d other : gmap string string) k :
  update d other !! k
  = match other !! k with Some v => Some v | None => d !! k end.
Proof.
  unfold update. rewrite lookup_union.
  destruct (other !! k), (d !! k); reflexivity.
Qed.

Lemma fold_update_acc (f : BuildPackI -> gmap string string) buildpacks acc k :
  fold_left (fun scripts buildpack => update scripts (f buildpack)) buildpacks acc
    !! k
  = match Reference.last_writer (f <$> buildpacks) k with
    | Some v => Some v
    | None => acc !! k
    end.
Proof.
  revert acc. induction buildpacks as [|b buildpacks IH]; intros acc; csimpl.
  - reflexivity.
  - rewrite IH, lookup_update.
    destruct (Reference.last_writer (f <$> buildpacks) k); reflexivity.
Qed.

Lemma merge_dicts_last_writer f buildpacks k :
  merge_dicts f buildpacks !! k = Reference.last_writer (f <$> buildpacks) k.
Proof.
  unfold merge_dicts. rewrite fold_update_acc, lookup_empty.
  by destruct (Reference.last_writer _ _).
Qed.

Lemma last_writer_none (ds : list (gmap string string)) k :
  Reference.last_writer ds k = None ->
  forall j d, ds !! j = Some d -> d !! k = None.
Proof.
  induction ds as [|e ds IH]; simpl; intros Hw j d Hj; [by destruct j|].
  destruct (Reference.last_writer ds k) eqn:Hds; [discriminate|].
  destruct j as [|j]; simpl in Hj.
  - by injection Hj as <-.
  - by apply (IH eq_refl j).
Qed.

(** [last_writer] answers [v] exactly when some dictionary of the
    list maps [k] to [v] and no later one has the key. *)
Lemma last_writer_spec (ds : list (gmap string string)) k v :
  Reference.last_writer ds k = Some v <->
  exists i d, ds !! i = Some d /\ d !! k = Some v
    /\ forall j d', (i < j)%nat -> ds !! j = Some d' -> d' !! k = None.
Proof.
  revert v. induction ds as [|d ds IH]; intros v; simpl.
  - split; [discriminate|]. intros (i & d & Hi & _). by destruct i.
  - pose proof (last_writer_none ds k) as Hnone.
    destruct (Reference.last_writer ds k) as [w|]; split.
    + intros [= ->].
      destruct (proj1 (IH v) eq_refl) as (i & d0 & Hi & Hk & Hlater).
      exists (S i), d0. repeat split; try done.
      intros [|j] d' Hlt Hj; [lia|]. apply (Hlater j); [lia|done].
    + intros (i & d0 & Hi & Hk & Hlater). destruct i as [|i].
      * destruct (proj1 (IH w) eq_refl) as (j & dj & Hj & Hkj & _).
        specialize (Hlater (S j) dj ltac:(lia) Hj). congruence.
      * apply (IH v). exists i, d0. repeat split; try done.
        intros j d' Hlt Hj. apply (Hlater (S j)); [lia|done].
    + intros Hd. exists 0%nat, d. repeat split; try done.
      intros [|j] d' Hlt Hj; [lia|]. by apply (Hnone eq_refl j).
    + intros (i & d0 & Hi & Hk & Hlater). destruct i as [|i].
      * simpl in Hi. by injection Hi as ->.
      * assert (None = Some v) as Hv; [|discriminate].
        apply (IH v). exists i, d0. repeat split; try done.
        intros j d' Hlt Hj. apply (Hlater (S j)); [lia|done].
Qed.
End MergeFacts.

(** C3: for every list of buildpacks held by the composable buildpack,
    its getters merge the buildpacks' answers in list order: packages
    and base packages are the union of the sets; the environment, path
    and script sequences are the concatenation of the sequences; and in
    the script-file mappings a key is bound to the value given by the
    last buildpack that has it. *)
Theorem merged_contract_fields (buildpacks : list Composable.BuildPackI) :
  Composable.get_packages buildpacks
    = ⋃ (Composable.bp_packages <$> buildpacks)
  /\ Composable.get_base_packages buildpacks
    = ⋃ (Composable.bp_base_packages <$> buildpacks)
  /\ Composable.get_build_env buildpacks
    = concat (Composable.bp_build_env <$> buildpacks)
  /\ Composable.get_env buildpacks
    = concat (Composable.bp_env <$> buildpacks)
  /\ Composable.get_path buildpacks
    = concat (Composable.bp_path <$> buildpacks)
  /\ Composable.get_build_scripts buildpacks
    = concat (Composable.bp_build_scripts <$> buildpacks)
  /\ Composable.get_preassemble_scripts buildpacks
    = concat (Composable.bp_preassemble_scripts <$> buildpacks)
  /\ Composable.get_assemble_scripts buildpacks
    = concat (Composable.bp_assemble_scripts <$> buildpacks)
  /\ Composable.get_post_build_scripts buildpacks
    = concat (Composable.bp_post_build_scripts <$> buildpacks)
  /\ (forall k v,
        Composable.get_build_script_files buildpacks !! k = Some v <->
        exists i b, buildpacks !! i = Some b
          /\ Composable.bp_build_script_files b !! k = Some v
          /\ forall j b', (i < j)%nat -> buildpacks !! j = Some b' ->
               Composable.bp_build_script_files b' !! k = None)
  /\ (forall k v,
        Composable.get_preassemble_script_files buildpacks !! k = Some v <->
        exists i b, buildpacks !! i = Some b
          /\ Composable.bp_preassemble_script_files b !! k = Some v
          /\ forall j b', (i < j)%nat -> buildpacks !! j = Some b' ->
               Composable.bp_preassemble_script_files b' !! k = None).
Proof.
  assert (Hdict : forall f k v,
    Composable.merge_dicts f buildpacks !! k = Some v <->
    exists i b, buildpacks !! i = Some b /\ f b !! k = Some v
      /\ forall j b', (i < j)%nat -> buildpacks !! j = Some b' -> f b' !! k = None).
  { intros f k v. rewrite merge_dicts_last_writer, last_writer_spec. split.
    - intros (i & d & Hi & Hk & Hlater).
      rewrite list_lookup_fmap in Hi.
      destruct (buildpacks !! i) as [b|] eqn:Hb; [|discriminate].
      injection Hi as <-. exists i, b. repeat split; try done.
      intros j b' Hlt Hj. apply (Hlater j (f b') Hlt).
      by rewrite list_lookup_fmap, Hj.
    - intros (i & b & Hi & Hk & Hlater). exists i, (f b).
      repeat split; try done.
      + by rewrite list_lookup_fmap, Hi.
      + intros j d' Hlt Hj. rewrite list_lookup_fmap in Hj.
        destruct (buildpacks !! j) as [b'|] eqn:Hb'; [|discriminate].
        injection Hj as <-. by apply (Hlater j). }
  repeat split;
    try apply merge_sets_union; try apply merge_lists_concat; apply Hdict.
Qed.

(** ** Engine adapter *)

#[local] Set Warnings "-clear-no-such-hyp".

Section BuildFacts.
Import Py DockerUtils.

Variable tempdir : string.
Variable fobj : fileobj.
Variable members : list string.
Variable kw : build_kwargs.
Variable p : child.

Local Abbreviation terminal := (terminal_events p).
Local Abbreviation consume' := (consume tempdir fobj members kw p).
Local Abbreviation drain' := (drain tempdir fobj members kw p).

Lemma line_at_break_nth pipe running :
  line_at_break pipe running = nth running pipe "".
Proof.
  revert pipe. induction running as [|r IH]; intros [|l pipe]; simpl; try done.
  rewrite IH. by destruct r.
Qed.

Lemma stream_lines_length pipe running :
  length (stream_lines pipe running) = running.
Proof.
  revert pipe. induction running as [|r IH]; intros pipe; simpl; [done|].
  destruct pipe; simpl; by rewrite IH.
Qed.

(** The progress events carry the first [running] results of
    [readline]: a prefix of the child's output, padded with empty
    reads once the output is used up. *)
Lemma stream_lines_lookup pipe running i :
  (i < running)%nat -> stream_lines pipe running !! i = Some (nth i pipe "").
Proof.
  revert pipe i. induction running as [|r IH]; intros pipe i Hi; [lia|].
  destruct pipe as [|l pipe], i as [|i]; simpl; try done.
  - rewrite IH by lia. by destruct i.
  - apply IH. lia.
Qed.

(** [rmtree] removes the directory and leaves nothing beneath it. *)
Lemma elem_of_rmtree fs d :
  d ∈ rmtree tempdir fs <-> beneath tempdir d = false /\ d ∈ fs.
Proof.
  unfold rmtree.
  apply (elem_of_filter (fun d => beneath tempdir d = false) fs d).
Qed.

Lemma tempdir_not_in_rmtree fs : tempdir ∉ rmtree tempdir fs.
Proof.
  intros [Hb _]%elem_of_rmtree. unfold beneath in Hb.
  by rewrite String.eqb_refl in Hb.
Qed.

Lemma tempdir_in_extractall fs : tempdir ∈ extractall tempdir fobj members (mkdtemp tempdir fs).
Proof.
  unfold extractall, mkdtemp. destruct fobj as [|[|]]; set_solver.
Qed.

(** A consumer that keeps asking gets every event and the generator
    runs to its last line. *)
Lemma consume_to_the_end extra pipe running fs :
  consume' (S (S running) + extra) (AtStream pipe running) fs
  = ((Stream <$> stream_lines pipe running) ++ terminal pipe running,
     rmtree tempdir fs, Exhausted).
Proof.
  revert pipe. induction running as [|r IH]; intros pipe.
  - unfold terminal_events.
    destruct pipe as [|line pipe];
      cbn [consume Nat.add next loop_iteration readline stream_lines
           line_at_break fmap list_fmap app];
      destruct (bool_decide (returncode p ≠ 0)); reflexivity.
  - change (S (S (S r)) + extra)%nat with (S (S (S r) + extra)).
    unfold terminal_events in *.
    destruct pipe as [|line pipe];
      cbn [consume next loop_iteration readline stream_lines line_at_break];
      rewrite IH; reflexivity.
Qed.

(** A consumer that leaves its loop while the generator is suspended
    at a progress event. *)
Lemma consume_abandoned n pipe running fs :
  (n <= running)%nat ->
  consume' n (AtStream pipe running) fs
  = (Stream <$> stream_lines pipe n, fs, Abandoned).
Proof.
  revert pipe running. induction n as [|n IH]; intros pipe running Hn.
  - reflexivity.
  - destruct running as [|r]; [lia|].
    destruct pipe as [|line pipe];
      cbn [consume next loop_iteration readline stream_lines];
      rewrite IH by lia; reflexivity.
Qed.

(** The first [next] makes the directory, extracts the archive and,
    when the command line can be put together, enters the loop. *)
Lemma consume_Start n fs :
  fobj ≠ Tar false -> is_Some (build_cmd kw tempdir) ->
  consume' (S n) Start fs
  = consume' (S n) (AtStream (output p) (polls_running p))
      (extractall tempdir fobj members (mkdtemp tempdir fs)).
Proof.
  intros Hf [cmd Hcmd]. cbn [consume next]. rewrite Hcmd.
  destruct fobj as [|[|]]; try done.
Qed.

Lemma drain_events fs :
  fobj ≠ Tar false -> is_Some (build_cmd kw tempdir) ->
  drain' fs
  = ((Stream <$> stream_lines (output p) (polls_running p))
       ++ terminal (output p) (polls_running p),
     rmtree tempdir (extractall tempdir fobj members (mkdtemp tempdir fs)),
     Exhausted).
Proof.
  intros Hf Hcmd. unfold drain. rewrite consume_Start by done.
  pose proof (consume_to_the_end 0 (output p) (polls_running p)) as H.
  rewrite Nat.add_0_r in H. apply H.
Qed.

(** A drained stream leaves no temporary directory behind. *)
Lemma drain_removes_tempdir fs :
  fobj ≠ Tar false -> is_Some (build_cmd kw tempdir) ->
  (tempdir ∉ (drain' fs).1.2) /\ (drain' fs).2 = Exhausted.
Proof.
  intros Hf Hcmd. rewrite drain_events by done. cbn [fst snd].
  split; [apply tempdir_not_in_rmtree|done].
Qed.

(** An abandoned stream leaves it. *)
Lemma abandon_keeps_tempdir n fs :
  fobj ≠ Tar false -> is_Some (build_cmd kw tempdir) ->
  (n < polls_running p)%nat ->
  consume' (S n) Start fs
  = (Stream <$> stream_lines (output p) (S n),
     extractall tempdir fobj members (mkdtemp tempdir fs), Abandoned).
Proof.
  intros Hf Hcmd Hn. rewrite consume_Start by done.
  apply consume_abandoned. lia.
Qed.

(** In a drained stream the error events are those of the end: one
    for a non-zero exit status, after progress events only, and none
    for a zero exit status. *)
Lemma drain_one_error_event fs :
  fobj ≠ Tar false -> is_Some (build_cmd kw tempdir) ->
  (returncode p ≠ 0 ->
   exists progress,
     (drain' fs).1.1
     = progress ++ [Error (line_at_break (output p) (polls_running p))]
     /\ Forall (fun e => is_error e = false) progress)
  /\ (returncode p = 0 ->
      Forall (fun e => is_error e = false) (drain' fs).1.1).
Proof.
  intros Hf Hcmd. rewrite drain_events by done. cbn [fst snd].
  unfold terminal_events.
  assert (Hprog : forall ls,
    Forall (fun e => is_error e = false) (Stream <$> ls)).
  { intros ls. apply Forall_fmap, Forall_true. done. }
  split; intros Hrc.
  - rewrite bool_decide_eq_true_2 by done. eexists. split; [reflexivity|apply Hprog].
  - rewrite bool_decide_eq_false_2 by (intros H; by apply H).
    rewrite app_nil_r. apply Hprog.
Qed.
End BuildFacts.

(** C5: a child that writes two lines and has exited when the reader
    first polls it.  The loop reads the first line, sees that the
    process has ended and leaves: the drained stream holds no progress
    event, although the child wrote two lines. *)
Theorem quick_build_lines_dropped :
  DockerUtils.output Examples.quick_build
  = ["Step 1/2 : FROM base"; "Step 2/2 : RUN true"]
  /\ DockerUtils.drain "/tmp/tmpk3x" DockerUtils.NoFileobj []
       Examples.plain_build Examples.quick_build ∅
     = ([], ∅, DockerUtils.Exhausted).
Proof. split; reflexivity. Qed.

(** C6: a build whose child writes two lines, both read while it is
    still running, and then exits with status 1.  The read that meets
    the end of the output returns the empty string, the loop is left
    with that value in [line], and the error event carries it: the
    stream ends with one error event, but its text is empty and not
    the last line observed, ["Step 2/2 : RUN false"]. *)
Theorem error_event_text_empty :
  DockerUtils.output (Examples.slow_build 1)
  = ["Step 1/2 : FROM base"; "Step 2/2 : RUN false"]
  /\ DockerUtils.returncode (Examples.slow_build 1) = 1
  /\ DockerUtils.drain "/tmp/tmpk3x" DockerUtils.NoFileobj []
       Examples.plain_build (Examples.slow_build 1) ∅
     = ([DockerUtils.Stream "Step 1/2 : FROM base";
         DockerUtils.Stream "Step 2/2 : RUN false";
         DockerUtils.Error ""], ∅, DockerUtils.Exhausted).
Proof. repeat split; reflexivity. Qed.

(** C7: four builds after which the temporary directory is still
    there: a consumer that takes the first progress event and leaves
    its loop; a consumer that leaves its loop on receiving the error
    event of a failed build; an archive that cannot be read; and a
    memory limit given as an integer, which raises [TypeError] on line
    61, after the directory was made on line 41. *)
Theorem tempdir_left_behind :
  DockerUtils.consume "/tmp/tmpk3x" DockerUtils.NoFileobj []
    Examples.plain_build (Examples.slow_build 0) 1 DockerUtils.Start ∅
  = ([DockerUtils.Stream "Step 1/2 : FROM base"], {["/tmp/tmpk3x"]},
     DockerUtils.Abandoned)
  /\ DockerUtils.consume "/tmp/tmpk3x" DockerUtils.NoFileobj []
       Examples.plain_build (Examples.slow_build 1) 3 DockerUtils.Start ∅
     = ([DockerUtils.Stream "Step 1/2 : FROM base";
         DockerUtils.Stream "Step 2/2 : RUN false";
         DockerUtils.Error ""], {["/tmp/tmpk3x"]}, DockerUtils.Abandoned)
  /\ DockerUtils.drain "/tmp/tmpk3x" (DockerUtils.Tar false) []
       Examples.plain_build (Examples.slow_build 0) ∅
     = ([], {["/tmp/tmpk3x"]}, DockerUtils.Failed Py.ReadError)
  /\ DockerUtils.drain "/tmp/tmpk3x" DockerUtils.NoFileobj []
       Examples.build_with_memlimit_bytes (Examples.slow_build 0) ∅
     = ([], {["/tmp/tmpk3x"]},
        DockerUtils.Failed (Py.TypeError "can only concatenate str to str")).
Proof.
  split; [reflexivity|]. split; [reflexivity|]. split; reflexivity.
Qed.

(** ** Command line *)

Section StringFacts.
Import Main.

(** [contains] is the test [sep in s]. *)
Lemma contains_spec sep s :
  contains sep s = true <-> exists a b, s = a +:+ String sep b.
Proof.
  induction s as [|c s IH]; simpl.
  - split; [discriminate|]. intros ([|? a] & b & H); discriminate.
  - destruct (Ascii.eqb c sep) eqn:Hc.
    + apply Ascii.eqb_eq in Hc as ->. split; [|done].
      intros _. by exists "", s.
    + rewrite IH. split.
      * intros (a & b & ->). by exists (String c a), b.
      * intros ([|c' a] & b & H); simpl in H; injection H as -> ->.
        -- by rewrite Ascii.eqb_refl in Hc.
        -- by exists a, b.
Qed.

Lemma contains_false sep s :
  contains sep s = false <-> forall a b, s ≠ a +:+ String sep b.
Proof.
  split.
  - intros Hf a b ->. assert (contains sep (a +:+ String sep b) = true) as Ht.
    { apply contains_spec. by exists a, b. }
    congruence.
  - intros Hne. destruct (contains sep s) eqn:Hc; [|done].
    apply contains_spec in Hc as (a & b & ->). by destruct (Hne a b).
Qed.

(** One more [--env] occurrence is one more call of the action. *)
Lemma parse_environment_snoc environ occurrences values :
  parse_environment environ (occurrences ++ [values])
  = MimicDockerEnvHandling environ (parse_environment environ occurrences) values.
Proof. unfold parse_environment. by rewrite fold_left_app. Qed.
End StringFacts.

Section MakeR2DFacts.
Import Py Main.

Variable isdir : string -> bool.
Variable exists_ : string -> bool.
Variable abspath : string -> string.
Variable new_Repo2Docker : Repo2Docker.
Variable load_config_file : string -> Repo2Docker -> result Repo2Docker.
Variable validate_and_generate_port_mapping :
  option (list string) -> result (list (string * string)).
Variable isnumeric : string -> bool.
Variable int : string -> result Z.

Local Abbreviation make :=
  (make_r2d isdir exists_ abspath new_Repo2Docker load_config_file
     validate_and_generate_port_mapping isnumeric int).

(** Follow [make_r2d] down the path on which it returns: at each
    check or collaborator call, the branch that exits or raises
    contradicts [H]. *)
Ltac scrutinee t :=
  lazymatch t with
  | match ?x with _ => _ end => scrutinee x
  | _ => t
  end.

Ltac follow H :=
  unfold make_r2d, exit_if, mbind, result_bind, Py.bind, mret,
    result_ret in H;
  repeat
    lazymatch type of H with
    | match ?x with _ => _ end = _ =>
        let y := scrutinee x in
        destruct y eqn:?; cbn beta iota in H; try discriminate H
    end;
  injection H as <-.

(** Whenever [make_r2d] returns, the run and dry-run flags are those
    of the command line, with run off under [--no-build], and the
    environment list is the one the parser collected. *)
Lemma make_r2d_flags v args r2d :
  make v args = Ok r2d ->
  dry_run r2d = negb (Args.build args)
  /\ run r2d = (if negb (Args.build args) then false else Args.run args)
  /\ environment r2d = Args.environment args.
Proof. intros H. follow H; done. Qed.

(** Whenever [make_r2d] returns a container that will be built, its
    primary user is not the superuser. *)
Lemma make_r2d_user_not_root v args r2d :
  make v args = Ok r2d -> dry_run r2d = false -> user_id r2d ≠ 0.
Proof.
  intros H. follow H; cbn [dry_run user_id]; intros Hdry Hroot;
    rewrite Hdry, Hroot in *; discriminate.
Qed.

(** Whenever [make_r2d] returns and the container is not run, neither
    [-p] nor [-P] was given. *)
Lemma make_r2d_no_run_no_ports v args r2d :
  make v args = Ok r2d -> run r2d = false ->
  Args.all_ports args = false /\ truthy_opt_list (Args.ports args) = false.
Proof.
  intros H. follow H; cbn [run]; intros Hrun; rewrite Hrun in *; simpl in *;
    (split; [by destruct (Args.all_ports args)|]);
    by destruct (truthy_opt_list (Args.ports args)).
Qed.

(** Whenever [make_r2d] returns with [-p] given, a command was given. *)
Lemma make_r2d_ports_need_cmd v args r2d :
  make v args = Ok r2d -> truthy_opt_list (Args.ports args) = true ->
  Args.cmd args ≠ [].
Proof.
  intros H. follow H; intros Hp Hcmd;
    rewrite Hp, Hcmd in *; simpl in *; discriminate.
Qed.

(** The volume check of line 314 reads the application object before
    the [-v] arguments are copied into it: whenever [make_r2d]
    returns and the container is not run, the object held no volume
    at that point. *)
Lemma make_r2d_no_run_volumes v args r2d :
  make v args = Ok r2d -> run r2d = false ->
  exists r0,
    load_config_file (Args.config args)
      (if Args.debug args then set_log_level DEBUG new_Repo2Docker
       else new_Repo2Docker) = Ok r0
    /\ Args.editable args = false
    /\ volumes r0 = ∅
    /\ add_volumes (Args.volumes args) ∅ = Ok (volumes r2d).
Proof.
  intros H. follow H; cbn [run volumes]; intros Hrun; rewrite Hrun in *;
    match goal with
    | Hv : truthy_dict ?d && negb false = false |- _ =>
        cbn [negb] in Hv; rewrite andb_true_r in Hv; unfold truthy_dict in Hv;
        apply negb_false_iff, bool_decide_eq_true_1 in Hv
    end.
  all: try match goal with
           | Hv : <[_:=_]> _ = ∅ |- _ => by apply insert_non_empty in Hv
           end.
  all: eexists; split; [done|]; split; [done|]; split; [done|]; congruence.
Qed.

Lemma add_volumes_well_formed vs d :
  well_formed_volumes vs -> exists d', add_volumes vs d = Ok d'.
Proof.
  intros Hwf. revert d. induction Hwf as [|v vs (src & dest & Hv) _ IH];
    intros d; simpl.
  - by eexists.
  - rewrite Hv. apply IH.
Qed.

(** With [-p] or [-P] and the container not run, [make_r2d] ends in
    [sys.exit(1)], provided the configuration loads and the [-v]
    arguments can be unpacked. *)
Lemma publish_without_run_exits args r0 :
  load_config_file (Args.config args)
    (if Args.debug args then set_log_level DEBUG new_Repo2Docker
     else new_Repo2Docker) = Ok r0 ->
  well_formed_volumes (Args.volumes args) ->
  (if negb (Args.build args) then false else Args.run args) = false ->
  Args.all_ports args = true \/ truthy_opt_list (Args.ports args) = true ->
  make false args = SysExit 1.
Proof.
  intros Hload Hwf Hrun Hpub.
  unfold make_r2d, exit_if, mbind, result_bind, Py.bind.
  rewrite Hload, Hrun. cbn [negb].
  destruct (Args.editable args); [destruct (isdir (Args.repo args))|];
    try done.
  - destruct (truthy_dict _); [done|]. cbn [andb].
    destruct (add_volumes_well_formed _
                (<[abspath (Args.repo args):="."]> (volumes r0)) Hwf) as [d' ->].
    destruct Hpub as [-> | ->]; [done|].
    by destruct (Args.all_ports args).
  - destruct (truthy_dict _); [done|]. cbn [andb].
    destruct (add_volumes_well_formed _ (volumes r0) Hwf) as [d' ->].
    destruct Hpub as [-> | ->]; [done|].
    by destruct (Args.all_ports args).
Qed.

(** With [-p] and no command, likewise. *)
Lemma publish_without_cmd_exits args r0 :
  load_config_file (Args.config args)
    (if Args.debug args then set_log_level DEBUG new_Repo2Docker
     else new_Repo2Docker) = Ok r0 ->
  well_formed_volumes (Args.volumes args) ->
  truthy_opt_list (Args.ports args) = true ->
  Args.cmd args = [] ->
  make false args = SysExit 1.
Proof.
  intros Hload Hwf Hp Hcmd.
  unfold make_r2d, exit_if, mbind, result_bind, Py.bind.
  rewrite Hload, Hp, Hcmd. cbn [truthy_list negb andb].
  destruct (Args.editable args); [destruct (isdir (Args.repo args))|];
    try done.
  - destruct (_ && _); [done|].
    destruct (add_volumes_well_formed _
                (<[abspath (Args.repo args):="."]> (volumes r0)) Hwf) as [d' ->].
    destruct (_ && _); [done|]. by destruct (negb _).
  - destruct (_ && _); [done|].
    destruct (add_volumes_well_formed _ (volumes r0) Hwf) as [d' ->].
    destruct (_ && _); [done|]. by destruct (negb _).
Qed.
End MakeR2DFacts.

(** C8: [repo2docker --no-run -v /data:/data .] asks for a volume mount
    with the run flag off.  The check of line 314 reads [r2d.volumes]
    before the [-v] arguments are copied into it on lines 319-321, so
    [make_r2d] returns an application object that holds the volume and
    is not run, and [main] goes on to [r2d.initialize()]. *)
Theorem volume_without_run_accepted :
  Main.Args.volumes Examples.no_run_with_volume = ["/data:/data"]
  /\ Main.Args.run Examples.no_run_with_volume = false
  /\ (exists r2d,
       Examples.make_r2d false Examples.no_run_with_volume = Py.Ok r2d
       /\ Main.volumes r2d = {["/data" := "/data"]}
       /\ Main.run r2d = false)
  /\ Main.reaches_initialize Examples.local_dir Examples.local_dir
       Examples.abspath Examples.r2d_of_user_1000 Examples.no_config
       Examples.no_ports Main.ascii_isnumeric Main.ascii_int
       false Examples.no_run_with_volume = true.
Proof.
  split; [reflexivity|]. split; [reflexivity|]. split; [|reflexivity].
  eexists. split; [reflexivity|]. split; [|reflexivity].
  cbn. by rewrite insert_empty.
Qed.

(** C9: [repo2docker --user-id 0 .], started by a user whose own uid is
    1000, asks for the superuser as primary user and is not in dry-run
    mode.  Line 347 tests the truth value of [args.user_id], which is
    false for 0, so the request is dropped: [make_r2d] returns, with
    the invoking user's uid in place of the one asked for. *)
Theorem user_id_zero_accepted :
  Main.Args.user_id Examples.user_id_zero = Some 0
  /\ Main.Args.build Examples.user_id_zero = true
  /\ exists r2d,
       Examples.make_r2d false Examples.user_id_zero = Py.Ok r2d
       /\ Main.user_id r2d = 1000
       /\ Main.dry_run r2d = false.
Proof.
  split; [reflexivity|]. split; [reflexivity|].
  eexists. split; [reflexivity|]. split; reflexivity.
Qed.

(** C10: an [--env] argument without ['='] is appended as [key=value]
    with the value the invoking process has for the key, and leaves the
    list as it was when the process has no such variable; an argument
    with ['='] in it is appended as given.  The list so collected is
    the environment of the application object [make_r2d] returns. *)
Theorem env_argument_handling (environ : gmap string string)
    (dest : list string) (values : string) :
  ((forall key val, values ≠ key +:+ "=" +:+ val) ->
     forall v, environ !! values = Some v ->
       Main.MimicDockerEnvHandling environ dest values
       = dest ++ [values +:+ "=" +:+ v])
  /\ ((forall key val, values ≠ key +:+ "=" +:+ val) ->
      environ !! values = None ->
      Main.MimicDockerEnvHandling environ dest values = dest)
  /\ ((exists key val, values = key +:+ "=" +:+ val) ->
      Main.MimicDockerEnvHandling environ dest values = dest ++ [values])
  /\ (forall isdir exists_ abspath new_Repo2Docker load_config_file
        validate_and_generate_port_mapping isnumeric int
        version_in_argv args r2d,
        Main.make_r2d isdir exists_ abspath new_Repo2Docker load_config_file
          validate_and_generate_port_mapping isnumeric int
          version_in_argv args = Py.Ok r2d ->
        Main.environment r2d = Main.Args.environment args).
Proof.
  unfold Main.MimicDockerEnvHandling. repeat split.
  - intros Hbare v Hv. apply contains_false in Hbare. by rewrite Hbare, Hv.
  - intros Hbare Hv. apply contains_false in Hbare. by rewrite Hbare, Hv.
  - intros Heq. apply contains_spec in Heq. by rewrite Heq.
  - intros. eapply make_r2d_flags; eauto.
Qed.

Lemma env_argument_handling_witness :
  (forall key val, "HOME" ≠ key +:+ "=" +:+ val)
  /\ Main.MimicDockerEnvHandling {["HOME" := "/home/jovyan"]} ["A=1"] "HOME"
     = ["A=1"; "HOME=/home/jovyan"]
  /\ Main.MimicDockerEnvHandling ∅ ["A=1"] "HOME" = ["A=1"]
  /\ Main.MimicDockerEnvHandling ∅ ["A=1"] "B=" = ["A=1"; "B="].
Proof.
  assert (Hbare : forall key val, "HOME" ≠ key +:+ "=" +:+ val).
  { apply (proj1 (contains_false "="%char "HOME")). reflexivity. }
  split; [exact Hbare|].
  destruct (env_argument_handling {["HOME" := "/home/jovyan"]} ["A=1"] "HOME")
    as (Hset & _).
  destruct (env_argument_handling ∅ ["A=1"] "HOME") as (_ & Hunset & _).
  destruct (env_argument_handling ∅ ["A=1"] "B=") as (_ & _ & Heq & _).
  split; [exact (Hset Hbare _ eq_refl)|].
  split; [exact (Hunset Hbare eq_refl)|].
  apply Heq. by exists "B", "".
Defined.

(** * Further properties of the embedded code *)

(** ** [ComposableBuildPack] *)

(** X1: [detect] returns, with [True], exactly when the object holds no
    buildpack yet and no catalog class detects; in every other case it
    raises [NameError], and it never calls [sys.exit]. *)
Theorem detect_outcome (detects : Composable.cls -> bool)
    (buildpacks : list Composable.entry) :
  ((Composable.detect detects buildpacks).2 = Py.Ok true <->
   buildpacks = [] /\ forall c, c ∈ Composable.catalog -> detects c = false)
  /\ ((Composable.detect detects buildpacks).2 = Py.Ok true
      \/ exists name,
           (Composable.detect detects buildpacks).2 = Py.Raise (Py.NameError name)).
Proof.
  destruct (decide (Exists (fun c => detects c = true) Composable.catalog))
    as [Hex|Hnex].
  - apply Exists_exists in Hex.
    pose proof (detect_raises_when_detected detects buildpacks Hex) as Hraise.
    rewrite Hraise. split; [|right; by eexists].
    split; [discriminate|]. intros [_ Hnone]. destruct Hex as (c & Hc & Hd).
    rewrite (Hnone c Hc) in Hd. discriminate.
  - assert (Hnone : forall c, c ∈ Composable.catalog -> detects c = false).
    { intros c Hc. destruct (detects c) eqn:Hd; [|done].
      destruct Hnex. apply Exists_exists. eauto. }
    unfold Composable.detect.
    rewrite (detect_loop_no_match detects _ _ Hnone).
    destruct buildpacks as [|b buildpacks]; cbn [Py.truthy_list snd].
    + split; [|by left]. done.
    + rewrite load_name_operator. cbn [snd]. split; [|right; by eexists].
      split; [discriminate|]. by intros [? _].
Qed.

(** X2: [detect] never removes or reorders what [self.buildpacks]
    already holds, and appends at most one entry. *)
Theorem detect_keeps_entries (detects : Composable.cls -> bool)
    (buildpacks : list Composable.entry) :
  buildpacks `prefix_of` (Composable.detect detects buildpacks).1
  /\ (length (Composable.detect detects buildpacks).1
      <= length buildpacks + 1)%nat.
Proof.
  destruct (decide (Exists (fun c => detects c = true) Composable.catalog))
    as [Hex|Hnex].
  - apply Exists_exists in Hex.
    destruct (detect_loop_match detects Composable.catalog buildpacks Hex)
      as (before & c & after & _ & _ & _ & Hloop).
    unfold Composable.detect. rewrite Hloop. cbn [fst]. split.
    + by apply prefix_app_r.
    + rewrite length_app. simpl. lia.
  - assert (Hnone : forall c, c ∈ Composable.catalog -> detects c = false).
    { intros c Hc. destruct (detects c) eqn:Hd; [|done].
      destruct Hnex. apply Exists_exists. eauto. }
    unfold Composable.detect.
    rewrite (detect_loop_no_match detects _ _ Hnone).
    destruct buildpacks as [|b buildpacks]; cbn [Py.truthy_list].
    + split; [done|simpl; lia].
    + rewrite load_name_operator. cbn [fst]. split; [done|lia].
Qed.

(** X3: a package is in the merged package set exactly when some
    buildpack of the list contributes it; the same holds for the base
    packages. *)
Theorem merged_packages_membership (buildpacks : list Composable.BuildPackI)
    (x : string) :
  (x ∈ Composable.get_packages buildpacks <->
   exists b, b ∈ buildpacks /\ x ∈ Composable.bp_packages b)
  /\ (x ∈ Composable.get_base_packages buildpacks <->
      exists b, b ∈ buildpacks /\ x ∈ Composable.bp_base_packages b).
Proof.
  unfold Composable.get_packages, Composable.get_base_packages.
  rewrite !merge_sets_union, !elem_of_union_list.
  split; split.
  - intros (X & HX & Hx). apply list_elem_of_fmap in HX as (b & -> & Hb). eauto.
  - intros (b & Hb & Hx). eexists. split; [|done]. by apply list_elem_of_fmap_2.
  - intros (X & HX & Hx). apply list_elem_of_fmap in HX as (b & -> & Hb). eauto.
  - intros (b & Hb & Hx). eexists. split; [|done]. by apply list_elem_of_fmap_2.
Qed.

(** X4: merging two lists of buildpacks one after the other is the
    merge of the two results: union for the package sets,
    concatenation for the sequences, and for the script files the
    entries of the second list replace those of the first. *)
Theorem merged_contract_app (bps1 bps2 : list Composable.BuildPackI) :
  Composable.get_packages (bps1 ++ bps2)
    = Composable.get_packages bps1 ∪ Composable.get_packages bps2
  /\ Composable.get_build_env (bps1 ++ bps2)
    = Composable.get_build_env bps1 ++ Composable.get_build_env bps2
  /\ Composable.get_build_scripts (bps1 ++ bps2)
    = Composable.get_build_scripts bps1 ++ Composable.get_build_scripts bps2
  /\ Composable.get_build_script_files (bps1 ++ bps2)
    = Py.update (Composable.get_build_script_files bps1)
        (Composable.get_build_script_files bps2).
Proof.
  unfold Composable.get_packages, Composable.get_build_env,
    Composable.get_build_scripts, Composable.get_build_script_files.
  rewrite !merge_sets_union, !merge_lists_concat, !fmap_app.
  split; [by rewrite union_list_app_L|].
  split; [by rewrite concat_app|]. split; [by rewrite concat_app|].
  apply map_eq. intros k. rewrite lookup_update, !merge_dicts_last_writer.
  rewrite fmap_app.
  generalize (Composable.bp_build_script_files <$> bps1) as ds1.
  generalize (Composable.bp_build_script_files <$> bps2) as ds2.
  intros ds2 ds1. induction ds1 as [|d ds1 IH]; simpl.
  - by destruct (Reference.last_writer ds2 k).
  - rewrite IH. by destruct (Reference.last_writer ds2 k).
Qed.

(** X5: a script file name is bound in the merged mapping exactly when
    some buildpack of the list binds it. *)
Theorem merged_script_files_keys (buildpacks : list Composable.BuildPackI)
    (k : string) :
  is_Some (Composable.get_build_script_files buildpacks !! k) <->
  exists b, b ∈ buildpacks
    /\ is_Some (Composable.bp_build_script_files b !! k).
Proof.
  unfold Composable.get_build_script_files. rewrite merge_dicts_last_writer.
  induction buildpacks as [|b buildpacks IH]; csimpl.
  - split; [by intros [? ?]|]. intros (b & Hb & _). by apply elem_of_nil in Hb.
  - destruct (Reference.last_writer _ k) as [v|].
    + split; [|by eexists]. intros _.
      destruct (proj1 IH) as (b' & Hb' & Hk); [by eexists|].
      exists b'. split; [by apply list_elem_of_further|done].
    + split.
      * intros Hk. exists b. split; [apply list_elem_of_here|done].
      * intros (b' & Hb' & Hk). apply elem_of_cons in Hb' as [->|Hb']; [done|].
        destruct (proj2 IH) as [? ?]; [eauto|discriminate].
Qed.

(** ** [DockerCLI.build] *)

Section StringAppend.
Lemma append_nil_r s : s +:+ "" = s.
Proof.
  induction s as [|c s IH]; [done|].
  change (String c (s +:+ "") = String c s). by rewrite IH.
Qed.

Lemma append_assoc s1 s2 s3 : (s1 +:+ s2) +:+ s3 = s1 +:+ s2 +:+ s3.
Proof.
  induction s1 as [|c s1 IH]; [done|].
  change (String c ((s1 +:+ s2) +:+ s3) = String c (s1 +:+ s2 +:+ s3)).
  by rewrite IH.
Qed.

Import DockerUtils.

Lemma starts_with_refl s : starts_with s s.
Proof. exists "". by rewrite append_nil_r. Qed.

Lemma starts_with_append s x : starts_with s (s +:+ x).
Proof. by exists x. Qed.

Lemma starts_with_trans a b c : starts_with a b -> starts_with b c -> starts_with a c.
Proof. intros [x ->] [y ->]. exists (x +:+ y). apply append_assoc. Qed.

Lemma occurs_in_end s x : occurs_in x (s +:+ x).
Proof. exists s, "". by rewrite append_nil_r. Qed.

Lemma occurs_in_extend x a b : occurs_in x a -> starts_with a b -> occurs_in x b.
Proof.
  intros (before & after & ->) [y ->]. exists before, (after +:+ y).
  by rewrite !append_assoc.
Qed.

(** A loop that appends one piece per element only extends the
    string, and the piece of every element occurs in the result. *)
Lemma fold_append_starts {A} (g : string -> A -> string) (f : A -> string) :
  (forall acc x, g acc x = acc +:+ f x) ->
  forall l acc, starts_with acc (fold_left g l acc).
Proof.
  intros Hg l. induction l as [|x l IH]; intros acc; simpl.
  - apply starts_with_refl.
  - eapply starts_with_trans; [|apply IH]. rewrite Hg. apply starts_with_append.
Qed.

Lemma fold_append_occurs {A} (g : string -> A -> string) (f : A -> string) :
  (forall acc x, g acc x = acc +:+ f x) ->
  forall l acc x, x ∈ l -> occurs_in (f x) (fold_left g l acc).
Proof.
  intros Hg l. induction l as [|y l IH]; intros acc x Hx; simpl.
  - by apply elem_of_nil in Hx.
  - apply elem_of_cons in Hx as [->|Hx]; [|by apply IH].
    eapply occurs_in_extend; [|by eapply fold_append_starts].
    rewrite Hg. apply occurs_in_end.
Qed.
End StringAppend.

Section BuildCmdFacts.
Import DockerUtils.

(** The command line is the string built before the last append,
    followed by the directory; that string starts with the fixed
    words and holds every option asked for. *)
Lemma build_cmd_front kw tempdir cmd :
  build_cmd kw tempdir = Some cmd ->
  exists front,
    cmd = front +:+ " " +:+ tempdir
    /\ starts_with "docker build --progress plain" front
    /\ (forall t, tag kw = Some t -> occurs_in (" --tag " +:+ t) front)
    /\ (forall items key value,
          buildargs kw = Some items -> (key, value) ∈ items ->
          occurs_in (" --build-arg " +:+ key +:+ "=" +:+ value) front)
    /\ (forall limits memlimit,
          container_limits kw = Some limits ->
          limits !! "memlimit" = Some (LimitStr memlimit) ->
          occurs_in (" --memory " +:+ memlimit) front)
    /\ (forall caches cache,
          cache_from kw = Some caches -> cache ∈ caches ->
          occurs_in (" " +:+ cache) front).
Proof.
  destruct kw as [tg ba frm r lim cf]. cbn [tag buildargs container_limits
    cache_from].
  pose (g := fun (c : string) (kv : string * string) =>
               let '(key, value) := kv in
               c +:+ " --build-arg " +:+ key +:+ "=" +:+ value).
  pose (f := fun kv : string * string =>
               " --build-arg " +:+ kv.1 +:+ "=" +:+ kv.2).
  assert (Hg : forall acc x, g acc x = acc +:+ f x) by (by intros acc [k v]).
  pose (h := fun (c cache : string) => c +:+ " " +:+ cache).
  assert (Hh : forall acc x, h acc x = acc +:+ (fun cache => " " +:+ cache) x)
    by done.
  pose (c1 := match tg with
              | Some t => "docker build --progress plain" +:+ " --tag " +:+ t
              | None => "docker build --progress plain"
              end).
  pose (c2 := match ba with Some items => fold_left g items c1 | None => c1 end).
  pose (c3 := if frm then c2 +:+ " --force-rm" else c2).
  pose (c4 := if r then c3 +:+ " --rm" else c3).
  pose (c6 := fun c5 : string =>
                if truthy_opt_list cf
                then fold_left h (default [] cf) (c5 +:+ " --cache-from")
                else c5).
  assert (Hcmd : build_cmd (Build_build_kwargs tg ba frm r lim cf) tempdir
                 = c5 ← match lim with
                        | Some limits =>
                            match limits !! "memlimit" with
                            | Some (LimitStr m) => Some (c4 +:+ " --memory " +:+ m)
                            | Some (LimitInt _) => None
                            | None => Some c4
                            end
                        | None => Some c4
                        end; Some (c6 c5 +:+ " " +:+ tempdir)) by reflexivity.
  rewrite Hcmd. clear Hcmd.
  assert (H01 : starts_with "docker build --progress plain" c1).
  { subst c1. destruct tg; [apply starts_with_append|apply starts_with_refl]. }
  assert (H12 : starts_with c1 c2).
  { subst c2. destruct ba; [by eapply fold_append_starts|apply starts_with_refl]. }
  assert (H24 : starts_with c2 c4).
  { subst c4 c3. destruct frm, r;
      eauto using starts_with_trans, starts_with_append, starts_with_refl. }
  assert (H56 : forall c5, starts_with c5 (c6 c5)).
  { intros c5. subst c6. cbn beta. destruct (truthy_opt_list cf).
    - eapply starts_with_trans; [apply starts_with_append|].
      by eapply fold_append_starts.
    - apply starts_with_refl. }
  assert (Htag : forall t, tg = Some t -> occurs_in (" --tag " +:+ t) c1).
  { intros t ->. subst c1. apply occurs_in_end. }
  assert (Hargs : forall items key value, ba = Some items ->
            (key, value) ∈ items ->
            occurs_in (" --build-arg " +:+ key +:+ "=" +:+ value) c2).
  { intros items key value -> Hin. subst c2.
    apply (fold_append_occurs g f Hg items c1 (key, value) Hin). }
  assert (Hcache : forall c5 caches cache, cf = Some caches -> cache ∈ caches ->
            occurs_in (" " +:+ cache) (c6 c5)).
  { intros c5 caches cache -> Hin. subst c6. cbn beta.
    destruct caches as [|x caches]; [by apply elem_of_nil in Hin|].
    cbn [truthy_opt_list Py.truthy_list default from_option].
    apply (fold_append_occurs h _ Hh _ _ cache Hin). }
  assert (Hfront : forall c5, starts_with c4 c5 ->
            (forall limits m, lim = Some limits ->
               limits !! "memlimit" = Some (LimitStr m) ->
               occurs_in (" --memory " +:+ m) c5) ->
            Some (c6 c5 +:+ " " +:+ tempdir) = Some cmd ->
            exists front, cmd = front +:+ " " +:+ tempdir
              /\ starts_with "docker build --progress plain" front
              /\ (forall t, tg = Some t -> occurs_in (" --tag " +:+ t) front)
              /\ (forall items key value, ba = Some items ->
                    (key, value) ∈ items ->
                    occurs_in (" --build-arg " +:+ key +:+ "=" +:+ value) front)
              /\ (forall limits m, lim = Some limits ->
                    limits !! "memlimit" = Some (LimitStr m) ->
                    occurs_in (" --memory " +:+ m) front)
              /\ (forall caches cache, cf = Some caches -> cache ∈ caches ->
                    occurs_in (" " +:+ cache) front)).
  { intros c5 H45 Hmem [= <-]. exists (c6 c5).
    assert (H06 : starts_with c1 (c6 c5))
      by eauto using starts_with_trans.
    assert (H26 : starts_with c2 (c6 c5))
      by eauto using starts_with_trans.
    repeat split; eauto using starts_with_trans, occurs_in_extend. }
  destruct lim as [limits|]; cbn [mbind option_bind].
  - destruct (limits !! "memlimit") as [[m|n]|] eqn:Hm; cbn [mbind option_bind].
    + apply Hfront; [apply starts_with_append|].
      intros limits' m' [= <-] Hm'. rewrite Hm in Hm'. injection Hm' as <-.
      apply occurs_in_end.
    + discriminate.
    + apply Hfront; [apply starts_with_refl|].
      intros limits' m' [= <-] Hm'. congruence.
  - apply Hfront; [apply starts_with_refl|]. discriminate.
Qed.
End BuildCmdFacts.

(** X6: whenever the command line of [build] is built, it starts with
    [docker build --progress plain] and its last word is the temporary
    directory. *)
Theorem build_cmd_shape (kw : DockerUtils.build_kwargs) (tempdir cmd : string) :
  DockerUtils.build_cmd kw tempdir = Some cmd ->
  DockerUtils.starts_with "docker build --progress plain" cmd
  /\ DockerUtils.ends_with (" " +:+ tempdir) cmd.
Proof.
  intros H. apply build_cmd_front in H as (front & -> & Hstart & _). split.
  - eapply starts_with_trans; [done|apply starts_with_append].
  - by exists front.
Qed.

Lemma build_cmd_shape_witness :
  exists cmd,
    DockerUtils.build_cmd Examples.tagged_build "/tmp/tmpk3x" = Some cmd
    /\ DockerUtils.starts_with "docker build --progress plain" cmd
    /\ DockerUtils.ends_with " /tmp/tmpk3x" cmd.
Proof.
  eexists. split; [reflexivity|].
  apply (build_cmd_shape Examples.tagged_build "/tmp/tmpk3x"). reflexivity.
Defined.

(** X7: whenever the command line of [build] is built, it holds
    [--tag] with the tag given, one [--build-arg key=value] for every
    entry of [buildargs], [--memory] with a textual memory limit, and
    every cache source. *)
Theorem build_cmd_options (kw : DockerUtils.build_kwargs) (tempdir cmd : string) :
  DockerUtils.build_cmd kw tempdir = Some cmd ->
  (forall t, DockerUtils.tag kw = Some t ->
     DockerUtils.occurs_in (" --tag " +:+ t) cmd)
  /\ (forall items key value,
        DockerUtils.buildargs kw = Some items -> (key, value) ∈ items ->
        DockerUtils.occurs_in (" --build-arg " +:+ key +:+ "=" +:+ value) cmd)
  /\ (forall limits memlimit,
        DockerUtils.container_limits kw = Some limits ->
        limits !! "memlimit" = Some (DockerUtils.LimitStr memlimit) ->
        DockerUtils.occurs_in (" --memory " +:+ memlimit) cmd)
  /\ (forall caches cache,
        DockerUtils.cache_from kw = Some caches -> cache ∈ caches ->
        DockerUtils.occurs_in (" " +:+ cache) cmd).
Proof.
  intros H.
  apply build_cmd_front in H as (front & -> & _ & Htag & Hargs & Hmem & Hcache).
  pose proof (starts_with_append front (" " +:+ tempdir)) as Hext.
  repeat split; intros; eapply occurs_in_extend; eauto.
Qed.

Lemma build_cmd_options_witness :
  exists cmd,
    DockerUtils.build_cmd Examples.tagged_build "/tmp/tmpk3x" = Some cmd
    /\ DockerUtils.occurs_in " --tag r2d-test" cmd
    /\ DockerUtils.occurs_in " --build-arg NB_UID=1000" cmd.
Proof.
  eexists. split; [reflexivity|].
  destruct (build_cmd_options Examples.tagged_build "/tmp/tmpk3x" _ eq_refl)
    as (Htag & Hargs & _).
  split.
  - exact (Htag "r2d-test" eq_refl).
  - apply (Hargs _ "NB_UID" "1000" eq_refl).
    apply list_elem_of_further, list_elem_of_here.
Defined.

(** X8: building the command line fails, with the [TypeError] of
    adding an integer to a string, exactly when [container_limits]
    holds an integer under ["memlimit"]. *)
Theorem build_cmd_type_error (kw : DockerUtils.build_kwargs) (tempdir : string) :
  DockerUtils.build_cmd kw tempdir = None <->
  exists limits n,
    DockerUtils.container_limits kw = Some limits
    /\ limits !! "memlimit" = Some (DockerUtils.LimitInt n).
Proof.
  unfold DockerUtils.build_cmd.
  destruct (DockerUtils.container_limits kw) as [limits|];
    [destruct (limits !! "memlimit") as [[m|n]|] eqn:Hm|];
    cbn [mbind option_bind]; split; try discriminate.
  - intros (limits' & n & [= <-] & Hn). congruence.
  - intros _. by exists limits, n.
  - done.
  - intros (limits' & n' & [= <-] & Hn). congruence.
  - intros (limits' & n' & Hl & _). discriminate.
Qed.

Section GeneratorFacts.
Import Py DockerUtils.

Lemma stream_lines_take pipe running :
  stream_lines pipe running
  = take running pipe ++ replicate (running - length pipe) "".
Proof.
  revert pipe. induction running as [|r IH]; intros [|line pipe]; try done.
  - cbn [stream_lines readline take app length Nat.sub replicate].
    rewrite IH. simpl. by rewrite take_nil, Nat.sub_0_r.
  - cbn [stream_lines readline take app length Nat.sub]. by rewrite IH.
Qed.

End GeneratorFacts.

(** X9: in a drained build whose child was started, the progress
    events carry the first [k] lines of the child's output, in the
    order written, where [k] is the number of polls that found the
    child running; when [k] exceeds the number of lines, progress
    events with empty text follow, one per extra poll. *)
Theorem drained_progress_events (tempdir : string) (fobj : DockerUtils.fileobj)
    (members : list string) (kw : DockerUtils.build_kwargs)
    (p : DockerUtils.child) (fs : gset string) :
  fobj ≠ DockerUtils.Tar false ->
  is_Some (DockerUtils.build_cmd kw tempdir) ->
  (DockerUtils.drain tempdir fobj members kw p fs).1.1
  = (DockerUtils.Stream
       <$> take (DockerUtils.polls_running p) (DockerUtils.output p))
    ++ (DockerUtils.Stream
          <$> replicate (DockerUtils.polls_running p
                         - length (DockerUtils.output p)) "")
    ++ DockerUtils.terminal_events p (DockerUtils.output p)
         (DockerUtils.polls_running p).
Proof.
  intros Hf Hcmd. rewrite drain_events by done. cbn [fst].
  by rewrite stream_lines_take, fmap_app, <- app_assoc.
Qed.

Lemma drained_progress_events_witness :
  DockerUtils.NoFileobj ≠ DockerUtils.Tar false
  /\ is_Some (DockerUtils.build_cmd Examples.plain_build "/tmp/tmpk3x")
  /\ (DockerUtils.drain "/tmp/tmpk3x" DockerUtils.NoFileobj []
        Examples.plain_build (Examples.slow_build 0) ∅).1.1
     = [DockerUtils.Stream "Step 1/2 : FROM base";
        DockerUtils.Stream "Step 2/2 : RUN false"].
Proof.
  split; [discriminate|]. split; [by eexists|].
  rewrite (drained_progress_events "/tmp/tmpk3x" DockerUtils.NoFileobj []
             Examples.plain_build (Examples.slow_build 0) ∅);
    [reflexivity|discriminate|by eexists].
Defined.

(** ** [make_r2d] and [main] *)

Section SplitFacts.
Import Py Main.

Lemma partition_key_value sep key value :
  contains sep key = false ->
  partition sep (key +:+ String sep value) = (key, value).
Proof.
  induction key as [|c key IH]; intros Hkey.
  - change (partition sep (String sep value) = ("", value)).
    cbn [partition]. by rewrite Ascii.eqb_refl.
  - change (partition sep (String c (key +:+ String sep value))
            = (String c key, value)).
    cbn [partition contains] in *.
    destruct (Ascii.eqb c sep); [discriminate|]. by rewrite IH.
Qed.

Lemma partition_bare sep s :
  contains sep s = false -> partition sep s = (s, "").
Proof.
  induction s as [|c s IH]; intros Hs; [done|].
  cbn [partition contains] in *.
  destruct (Ascii.eqb c sep); [discriminate|]. by rewrite IH.
Qed.

Lemma add_pairs_last items l d :
  add_pairs (items ++ [l]) d !! (partition "="%char l).1
  = Some (partition "="%char l).2.
Proof.
  unfold add_pairs. rewrite fold_left_app. cbn [fold_left].
  destruct (partition "="%char l) as [key val]. apply lookup_insert_eq.
Qed.

Lemma split_bare sep s : contains sep s = false -> split sep s = [s].
Proof.
  induction s as [|c s IH]; intros Hs; [done|].
  cbn [split contains] in *.
  destruct (Ascii.eqb c sep); [discriminate|]. by rewrite IH.
Qed.

Lemma split_singleton sep s a :
  split sep s = [a] -> a = s /\ contains sep s = false.
Proof.
  revert a. induction s as [|c s IH]; intros a; cbn [split contains].
  - by intros [= <-].
  - destruct (Ascii.eqb c sep).
    + destruct s; cbn [split]; [discriminate|].
      destruct (Ascii.eqb _ _); [discriminate|].
      by destruct (split sep s).
    + destruct (split sep s) as [|h t] eqn:Hs; [|intros [= <- ->]].
      * intros [= <-]. destruct s; [discriminate|]. cbn [split] in Hs.
        destruct (Ascii.eqb _ _); [discriminate|].
        by destruct (split sep s).
      * destruct (IH h eq_refl) as [-> ?]. done.
Qed.

(** [split] gives two parts exactly for a string with one separator. *)
Lemma split_pair sep s a b :
  split sep s = [a; b] <->
  s = a +:+ String sep b /\ contains sep a = false /\ contains sep b = false.
Proof.
  split.
  - revert a. induction s as [|c s IH]; intros a; cbn [split]; [discriminate|].
    destruct (Ascii.eqb c sep) eqn:Hc.
    + apply Ascii.eqb_eq in Hc as ->. intros [= <- Hs].
      apply split_singleton in Hs as [-> ?]. done.
    + destruct (split sep s) as [|h t] eqn:Hs; [discriminate|].
      intros [= <- ->]. destruct (IH h eq_refl) as (-> & Hh & Hb).
      split; [done|]. split; [|done]. cbn [contains]. by rewrite Hc.
  - intros (-> & Ha & Hb). induction a as [|c a IH].
    + change (split sep (String sep b) = [""; b]). cbn [split].
      by rewrite Ascii.eqb_refl, split_bare.
    + change (split sep (String c (a +:+ String sep b)) = [String c a; b]).
      cbn [split contains] in *.
      destruct (Ascii.eqb c sep); [discriminate|]. by rewrite IH.
Qed.

Lemma add_volumes_inv vs d d' :
  add_volumes vs d = Ok d' ->
  Forall (fun v => exists src dest, split ":"%char v = [src; dest]) vs.
Proof.
  revert d. induction vs as [|v vs IH]; intros d; cbn [add_volumes]; [done|].
  destruct (split ":"%char v) as [|src [|dest [|? ?]]] eqn:Hv; try discriminate.
  intros H. constructor; [by eauto|by eapply IH].
Qed.

Lemma add_volumes_last vs src dest d d' :
  add_volumes (vs ++ [src +:+ String ":"%char dest]) d = Ok d' ->
  contains ":"%char src = false -> contains ":"%char dest = false ->
  d' !! src = Some dest.
Proof.
  intros H Hsrc Hdest. revert d H.
  induction vs as [|v vs IH]; intros d; cbn [add_volumes app].
  - rewrite (proj2 (split_pair _ _ src dest)) by done.
    intros [= <-]. apply lookup_insert_eq.
  - destruct (split ":"%char v) as [|? [|? [|? ?]]]; try discriminate.
    apply IH.
Qed.

Lemma add_volumes_keeps vs d d' k :
  add_volumes vs d = Ok d' -> is_Some (d !! k) -> is_Some (d' !! k).
Proof.
  revert d. induction vs as [|v vs IH]; intros d; cbn [add_volumes].
  - by intros [= <-].
  - destruct (split ":"%char v) as [|src [|dest [|? ?]]]; try discriminate.
    intros H Hk. apply (IH _ H). rewrite lookup_insert.
    by destruct (decide (src = k)).
Qed.

(** Every call of the [--env] action keeps the list free of entries
    without ['=']. *)
Lemma MimicDockerEnvHandling_keeps environ dest values :
  Forall (fun e => contains "="%char e = true) dest ->
  Forall (fun e => contains "="%char e = true)
    (MimicDockerEnvHandling environ dest values).
Proof.
  intros Hdest. unfold MimicDockerEnvHandling.
  destruct (contains "="%char values) eqn:Hv; cbn [negb].
  - apply Forall_app. split; [done|]. by constructor.
  - destruct (environ !! values) as [v|]; [|done].
    apply Forall_app. split; [done|]. constructor; [|done].
    apply contains_spec. by exists values, v.
Qed.

(** The collected list is empty only when every occurrence was a bare
    key that the environment does not define. *)
Lemma parse_environment_nil environ occurrences :
  parse_environment environ occurrences = [] ->
  Forall (fun o => contains "="%char o = false /\ environ !! o = None)
    occurrences.
Proof.
  induction occurrences as [|values occurrences IH] using rev_ind; [done|].
  rewrite parse_environment_snoc. unfold MimicDockerEnvHandling.
  destruct (contains "="%char values) eqn:Hv; cbn [negb].
  - intros H. by apply app_eq_nil in H as [_ ?].
  - destruct (environ !! values) eqn:He.
    + intros H. by apply app_eq_nil in H as [_ ?].
    + intros H. apply Forall_app. split; [by apply IH|]. by constructor.
Qed.
End SplitFacts.

Section MakeR2DInvariants.
Import Py Main.

Variable isdir : string -> bool.
Variable exists_ : string -> bool.
Variable abspath : string -> string.
Variable new_Repo2Docker : Repo2Docker.
Variable load_config_file : string -> Repo2Docker -> result Repo2Docker.
Variable validate_and_generate_port_mapping :
  option (list string) -> result (list (string * string)).
Variable isnumeric : string -> bool.
Variable int : string -> result Z.

Local Abbreviation make :=
  (make_r2d isdir exists_ abspath new_Repo2Docker load_config_file
     validate_and_generate_port_mapping isnumeric int).

Ltac scrutinee t :=
  lazymatch t with
  | match ?x with _ => _ end => scrutinee x
  | _ => t
  end.

Ltac follow H :=
  unfold make_r2d, exit_if, mbind, result_bind, Py.bind, mret,
    result_ret in H;
  repeat
    lazymatch type of H with
    | match ?x with _ => _ end = _ =>
        let y := scrutinee x in
        destruct y eqn:?; cbn beta iota in H; try discriminate H
    end;
  injection H as <-.

(** X12: whenever [make_r2d] returns, the last [--build-arg] and the
    last [--label] of the form [key=value] are stored under [key] with
    everything after the first ['='] as value, and a last label without
    ['='] is stored with the empty string as value. *)
Theorem build_args_and_labels_stored v args r2d :
  make_r2d isdir exists_ abspath new_Repo2Docker load_config_file
    validate_and_generate_port_mapping isnumeric int v args = Ok r2d ->
  (forall items key value,
     Args.build_args args = items ++ [key +:+ "=" +:+ value] ->
     contains "="%char key = false ->
     extra_build_args r2d !! key = Some value)
  /\ (forall items key value,
        Args.labels args = items ++ [key +:+ "=" +:+ value] ->
        contains "="%char key = false ->
        labels r2d !! key = Some value)
  /\ (forall items key,
        Args.labels args = items ++ [key] ->
        contains "="%char key = false ->
        labels r2d !! key = Some "").
Proof.
  intros H.
  assert (Hkv : forall items key value d, contains "="%char key = false ->
            add_pairs (items ++ [key +:+ "=" +:+ value]) d !! key = Some value).
  { intros items key value d Hkey.
    pose proof (add_pairs_last items (key +:+ "=" +:+ value) d) as Hl.
    change (key +:+ "=" +:+ value) with (key +:+ String "="%char value) in Hl.
    by rewrite (partition_key_value _ _ _ Hkey) in Hl. }
  assert (Hbare : forall items key d, contains "="%char key = false ->
            add_pairs (items ++ [key]) d !! key = Some "").
  { intros items key d Hkey. pose proof (add_pairs_last items key d) as Hl.
    by rewrite (partition_bare _ _ Hkey) in Hl. }
  follow H; cbn [extra_build_args labels];
    (split; [|split]); intros; subst;
    match goal with Heq : _ = _ ++ [_] |- _ => rewrite Heq end; eauto.
Qed.

(** X13: whenever [make_r2d] returns, every [-v] argument has the form
    [src:dest] with no further [':'], and the last such argument is in
    the volumes of the application object: [src] is mapped to [dest]. *)
Theorem volumes_well_formed_and_stored v args r2d :
  make_r2d isdir exists_ abspath new_Repo2Docker load_config_file
    validate_and_generate_port_mapping isnumeric int v args = Ok r2d ->
  Forall (fun vol => exists src dest,
            vol = src +:+ ":" +:+ dest
            /\ contains ":"%char src = false
            /\ contains ":"%char dest = false) (Args.volumes args)
  /\ (forall vols src dest,
        Args.volumes args = vols ++ [src +:+ ":" +:+ dest] ->
        contains ":"%char src = false -> contains ":"%char dest = false ->
        volumes r2d !! src = Some dest).
Proof.
  intros H.
  follow H; cbn [volumes];
    match goal with Hv : add_volumes _ _ = Ok _ |- _ => rename Hv into Hvol end;
    (split;
     [ apply add_volumes_inv in Hvol;
       eapply Forall_impl; [exact Hvol|];
       intros vol (src & dest & Hs); apply split_pair in Hs;
       by exists src, dest
     | intros vols src dest Heq Hsrc Hdest; rewrite Heq in Hvol;
       by apply (add_volumes_last vols src dest _ _ Hvol) ]).
Qed.

(** X14: whenever [make_r2d] returns an object that will not be run,
    the command line had no [-p], no [-P] and no [--editable], and the
    environment list the parser collected is empty: every [--env]
    occurrence on the command line was a bare key that the environment
    of the invoking process does not define. *)
Theorem no_run_means_nothing_to_run v args r2d :
  make_r2d isdir exists_ abspath new_Repo2Docker load_config_file
    validate_and_generate_port_mapping isnumeric int v args = Ok r2d -> run r2d = false ->
  Args.all_ports args = false
  /\ truthy_opt_list (Args.ports args) = false
  /\ Args.editable args = false
  /\ Args.environment args = []
  /\ (forall environ occurrences,
        Args.environment args = parse_environment environ occurrences ->
        Forall (fun o => contains "="%char o = false /\ environ !! o = None)
          occurrences).
Proof.
  intros H Hrun.
  destruct (make_r2d_no_run_no_ports _ _ _ _ _ _ _ _ _ _ _ H Hrun) as [HP Hp].
  destruct (make_r2d_no_run_volumes _ _ _ _ _ _ _ _ _ _ _ H Hrun)
    as (r0 & _ & Hed & _).
  assert (Henv : Args.environment args = []).
  { revert Hrun. follow H; cbn [run]; intros Hrun; rewrite Hrun in *;
      cbn [negb] in *;
      by destruct (Args.environment args). }
  split; [done|]. split; [done|]. split; [done|]. split; [done|].
  intros environ occurrences Heq. apply parse_environment_nil. congruence.
Qed.

(** X15: whenever [make_r2d] returns an object in dry-run mode, the
    object is neither run nor pushed. *)
Theorem dry_run_never_runs v args r2d :
  make_r2d isdir exists_ abspath new_Repo2Docker load_config_file
    validate_and_generate_port_mapping isnumeric int v args = Ok r2d -> dry_run r2d = true ->
  run r2d = false /\ push r2d = false.
Proof.
  intros H. follow H; cbn [dry_run run push]; by intros ->.
Qed.

(** X16: whenever [make_r2d] returns an object that is not in dry-run
    mode, the user id of its primary user is not 0. *)
Theorem primary_user_not_root v args r2d :
  make_r2d isdir exists_ abspath new_Repo2Docker load_config_file
    validate_and_generate_port_mapping isnumeric int v args = Ok r2d -> dry_run r2d = false -> user_id r2d ≠ 0.
Proof. apply make_r2d_user_not_root. Qed.

(** X17: whenever [make_r2d] returns and [-p] was given, a command was
    given as well and the object will be run. *)
Theorem ports_need_cmd_and_run v args r2d :
  make_r2d isdir exists_ abspath new_Repo2Docker load_config_file
    validate_and_generate_port_mapping isnumeric int v args = Ok r2d -> truthy_opt_list (Args.ports args) = true ->
  Args.cmd args ≠ [] /\ run r2d = true.
Proof.
  intros H Hp. split; [by eapply make_r2d_ports_need_cmd|].
  destruct (run r2d) eqn:Hrun; [done|].
  destruct (make_r2d_no_run_no_ports _ _ _ _ _ _ _ _ _ _ _ H Hrun). congruence.
Qed.

(** X18: whenever [make_r2d] returns and [--editable] was given, the
    repository is a directory, its absolute path is among the volumes
    of the object, and the object will be run. *)
Theorem editable_mount_present v args r2d :
  make_r2d isdir exists_ abspath new_Repo2Docker load_config_file
    validate_and_generate_port_mapping isnumeric int v args = Ok r2d -> Args.editable args = true ->
  isdir (Args.repo args) = true
  /\ is_Some (volumes r2d !! abspath (Args.repo args))
  /\ run r2d = true.
Proof.
  intros H Hed.
  assert (Hrun : run r2d = true).
  { destruct (run r2d) eqn:Hrun; [done|].
    destruct (make_r2d_no_run_volumes _ _ _ _ _ _ _ _ _ _ _ H Hrun)
      as (r0 & _ & Hed' & _). congruence. }
  split; [|split; [|done]]; clear Hrun;
    follow H; try congruence; cbn [volumes];
    match goal with Hv : add_volumes _ _ = Ok _ |- _ =>
      apply (add_volumes_keeps _ _ _ _ Hv) end;
    rewrite lookup_insert_eq; by eexists.
Qed.

(** X19: whenever [make_r2d] returns an object whose checkout is to be
    removed at the end, the repository argument is not an existing
    local path and [--no-clean] was not given. *)
Theorem local_checkout_kept v args r2d :
  make_r2d isdir exists_ abspath new_Repo2Docker load_config_file
    validate_and_generate_port_mapping isnumeric int v args = Ok r2d -> cleanup_checkout r2d = true ->
  exists_ (Args.repo args) = false /\ Args.clean args = true.
Proof.
  intros H. follow H; cbn [cleanup_checkout];
    by destruct (exists_ (Args.repo args)).
Qed.

Variable initialize : Repo2Docker -> result Repo2Docker.
Variable start : Repo2Docker -> engine_error + result unit.

(** X20: [main] calls [initialize] exactly when [make_r2d] returned
    an object and [start] exactly when, in addition, [initialize]
    returned; [initialize] comes first; and when [start] raises
    [BuildError] or [ImageLoadError] the exit status is 1. *)
Theorem main_call_order v args :
  (Initialize ∈ (main isdir exists_ abspath new_Repo2Docker load_config_file
      validate_and_generate_port_mapping isnumeric int initialize start v args).1
   <-> exists r2d,
         make_r2d isdir exists_ abspath new_Repo2Docker load_config_file
           validate_and_generate_port_mapping isnumeric int v args = Ok r2d)
  /\ (Start ∈ (main isdir exists_ abspath new_Repo2Docker load_config_file
      validate_and_generate_port_mapping isnumeric int initialize start v args).1
      <-> exists r2d r2d',
            make_r2d isdir exists_ abspath new_Repo2Docker load_config_file
              validate_and_generate_port_mapping isnumeric int v args = Ok r2d
            /\ initialize r2d = Ok r2d')
  /\ ((main isdir exists_ abspath new_Repo2Docker load_config_file
      validate_and_generate_port_mapping isnumeric int initialize start v args).1
      `prefix_of` [Initialize; Start])
  /\ (forall r2d r2d' err,
        make_r2d isdir exists_ abspath new_Repo2Docker load_config_file
          validate_and_generate_port_mapping isnumeric int v args = Ok r2d ->
        initialize r2d = Ok r2d' -> start r2d' = inl err ->
        exit_status
          (main isdir exists_ abspath new_Repo2Docker load_config_file
      validate_and_generate_port_mapping isnumeric int initialize start v args).2
        = 1).
Proof.
  unfold main. destruct (make v args) as [r2d|e|code]; cbn [fst snd].
  - destruct (initialize r2d) as [r2d'|e|code] eqn:Hinit; cbn [fst snd].
    + destruct (start r2d') as [err|r] eqn:Hstart; cbn [fst snd].
      * split; [split; [by eauto|intros _; apply list_elem_of_here]|].
        split; [split; [by eauto|intros _; apply list_elem_of_further,
                                   list_elem_of_here]|].
        split; [done|]. done.
      * split; [split; [by eauto|intros _; apply list_elem_of_here]|].
        split; [split; [by eauto|intros _; apply list_elem_of_further,
                                   list_elem_of_here]|].
        split; [done|]. intros ? ? ? [= <-] Hi Hs. congruence.
    + split; [split; [by eauto|intros _; apply list_elem_of_here]|].
      split.
      { split.
        - intros Hin. apply list_elem_of_singleton in Hin. discriminate.
        - intros (? & ? & [= <-] & Hi). congruence. }
      split; [by exists [Start]|]. intros ? ? ? [= <-] Hi. congruence.
    + split; [split; [by eauto|intros _; apply list_elem_of_here]|].
      split.
      { split.
        - intros Hin. apply list_elem_of_singleton in Hin. discriminate.
        - intros (? & ? & [= <-] & Hi). congruence. }
      split; [by exists [Start]|]. intros ? ? ? [= <-] Hi. congruence.
  - split; [split; [by intros ?%elem_of_nil|by intros [? ?]]|].
    split; [split; [by intros ?%elem_of_nil|by intros (? & ? & ? & ?)]|].
    split; [apply prefix_nil|]. discriminate.
  - split; [split; [by intros ?%elem_of_nil|by intros [? ?]]|].
    split; [split; [by intros ?%elem_of_nil|by intros (? & ? & ? & ?)]|].
    split; [apply prefix_nil|]. discriminate.
Qed.

(** X21: with [-p] or [-P] on a command line that does not run the
    container, [main] ends with exit status 1 and has called neither
    [initialize] nor [start], provided the configuration loads and the
    [-v] arguments can be unpacked. *)
Theorem main_publish_without_run args r0 :
  load_config_file (Args.config args)
    (if Args.debug args then set_log_level DEBUG new_Repo2Docker
     else new_Repo2Docker) = Ok r0 ->
  well_formed_volumes (Args.volumes args) ->
  (if negb (Args.build args) then false else Args.run args) = false ->
  Args.all_ports args = true \/ truthy_opt_list (Args.ports args) = true ->
  main isdir exists_ abspath new_Repo2Docker load_config_file
      validate_and_generate_port_mapping isnumeric int initialize start false args
  = ([], SysExit 1)
  /\ exit_status (main isdir exists_ abspath new_Repo2Docker load_config_file
      validate_and_generate_port_mapping isnumeric int initialize start false args).2 = 1.
Proof.
  intros Hload Hwf Hrun Hpub. unfold main.
  by rewrite (publish_without_run_exits _ _ _ _ _ _ _ _ _ _ Hload Hwf Hrun Hpub).
Qed.
End MakeR2DInvariants.

(** X22: every entry of the environment list that the [--env] action
    collects has the form [key=value]: it contains ['=']. *)
Theorem environment_entries_have_eq (environ : gmap string string)
    (occurrences : list string) :
  Forall (fun e => Main.contains "="%char e = true)
    (Main.parse_environment environ occurrences).
Proof.
  induction occurrences as [|values occurrences IH] using rev_ind.
  - constructor.
  - rewrite parse_environment_snoc. by apply MimicDockerEnvHandling_keeps.
Qed.

(** ** Instances of the properties above *)

Lemma build_args_and_labels_stored_witness :
  exists r2d,
    Examples.make_r2d false
      (Examples.args_with true true false false None [] [] ["FOO=BAR"]
         ["cat"; "/tmp/foo.txt"]) = Py.Ok r2d
    /\ Main.contains "="%char "FOO" = false
    /\ Main.extra_build_args r2d !! "FOO" = Some "BAR".
Proof.
  destruct (Examples.make_r2d false _) as [r2d|e|c] eqn:H;
    [|vm_compute in H; discriminate..].
  exists r2d. split; [reflexivity|]. split; [reflexivity|].
  destruct (build_args_and_labels_stored _ _ _ _ _ _ _ _ _ _ _ H) as [Hargs _].
  apply (Hargs [] "FOO" "BAR"); reflexivity.
Defined.

Lemma volumes_well_formed_and_stored_witness :
  exists r2d,
    Examples.make_r2d false
      (Examples.args_with true true false false None ["/data:/srv"] [] [] [])
    = Py.Ok r2d
    /\ Main.volumes r2d !! "/data" = Some "/srv".
Proof.
  destruct (Examples.make_r2d false _) as [r2d|e|c] eqn:H;
    [|vm_compute in H; discriminate..].
  exists r2d. split; [reflexivity|].
  destruct (volumes_well_formed_and_stored _ _ _ _ _ _ _ _ _ _ _ H) as [_ Hlast].
  apply (Hlast [] "/data" "/srv"); reflexivity.
Defined.

Lemma no_run_means_nothing_to_run_witness :
  exists r2d,
    Examples.make_r2d false Examples.no_run_with_volume = Py.Ok r2d
    /\ Main.run r2d = false
    /\ Main.Args.environment Examples.no_run_with_volume
       = Main.parse_environment ∅ ["UNSET_KEY"]
    /\ Forall (fun o => Main.contains "="%char o = false
                        /\ (∅ : gmap string string) !! o = None)
         ["UNSET_KEY"].
Proof.
  destruct (Examples.make_r2d false _) as [r2d|e|c] eqn:H;
    [|vm_compute in H; discriminate..].
  assert (Hrun : Main.run r2d = false).
  { vm_compute in H. injection H as <-. reflexivity. }
  exists r2d. split; [reflexivity|]. split; [exact Hrun|].
  split; [reflexivity|].
  destruct (no_run_means_nothing_to_run _ _ _ _ _ _ _ _ _ _ _ H Hrun)
    as (_ & _ & _ & _ & Hocc).
  apply (Hocc ∅ ["UNSET_KEY"]). reflexivity.
Defined.

Lemma dry_run_never_runs_witness :
  exists r2d,
    Examples.make_r2d false
      (Examples.args_with false true false false None [] [] [] []) = Py.Ok r2d
    /\ Main.dry_run r2d = true
    /\ Main.run r2d = false.
Proof.
  destruct (Examples.make_r2d false _) as [r2d|e|c] eqn:H;
    [|vm_compute in H; discriminate..].
  assert (Hdry : Main.dry_run r2d = true).
  { vm_compute in H. injection H as <-. reflexivity. }
  exists r2d. split; [reflexivity|]. split; [exact Hdry|].
  apply (dry_run_never_runs _ _ _ _ _ _ _ _ _ _ _ H Hdry).
Defined.

Lemma primary_user_not_root_witness :
  exists r2d,
    Examples.make_r2d false (Examples.default_args ".") = Py.Ok r2d
    /\ Main.dry_run r2d = false
    /\ Main.user_id r2d ≠ 0.
Proof.
  destruct (Examples.make_r2d false _) as [r2d|e|c] eqn:H;
    [|vm_compute in H; discriminate..].
  assert (Hdry : Main.dry_run r2d = false).
  { vm_compute in H. injection H as <-. reflexivity. }
  exists r2d. split; [reflexivity|]. split; [exact Hdry|].
  apply (primary_user_not_root _ _ _ _ _ _ _ _ _ _ _ H Hdry).
Defined.

Lemma ports_need_cmd_and_run_witness :
  exists r2d,
    Main.make_r2d Examples.local_dir Examples.local_dir Examples.abspath
      Examples.r2d_of_user_1000 Examples.no_config Examples.same_ports
      Main.ascii_isnumeric Main.ascii_int false
      (Examples.args_with true true false false (Some ["8888"]) [] [] []
         ["jupyter"; "notebook"]) = Py.Ok r2d
    /\ Main.run r2d = true.
Proof.
  destruct (Main.make_r2d _ _ _ _ _ _ _ _ _ _) as [r2d|e|c] eqn:H;
    [|vm_compute in H; discriminate..].
  exists r2d. split; [reflexivity|].
  apply (ports_need_cmd_and_run _ _ _ _ _ _ _ _ _ _ _ H). reflexivity.
Defined.

Lemma editable_mount_present_witness :
  exists r2d,
    Examples.make_r2d false
      (Examples.args_with true true true false None [] [] [] []) = Py.Ok r2d
    /\ is_Some (Main.volumes r2d !! "/work").
Proof.
  destruct (Examples.make_r2d false _) as [r2d|e|c] eqn:H;
    [|vm_compute in H; discriminate..].
  exists r2d. split; [reflexivity|].
  apply (editable_mount_present _ _ _ _ _ _ _ _ _ _ _ H). reflexivity.
Defined.

Lemma local_checkout_kept_witness :
  exists r2d,
    Main.make_r2d Examples.local_dir Examples.remote Examples.abspath
      Examples.r2d_of_user_1000 Examples.no_config Examples.no_ports
      Main.ascii_isnumeric Main.ascii_int false
      (Examples.default_args "https://github.com/binder-examples/requirements")
    = Py.Ok r2d
    /\ Main.cleanup_checkout r2d = true
    /\ Main.Args.clean
         (Examples.default_args
            "https://github.com/binder-examples/requirements") = true.
Proof.
  destruct (Main.make_r2d _ _ _ _ _ _ _ _ _ _) as [r2d|e|c] eqn:H;
    [|vm_compute in H; discriminate..].
  assert (Hclean : Main.cleanup_checkout r2d = true).
  { vm_compute in H. injection H as <-. reflexivity. }
  exists r2d. split; [reflexivity|]. split; [exact Hclean|].
  apply (local_checkout_kept _ _ _ _ _ _ _ _ _ _ _ H Hclean).
Defined.

Lemma main_publish_without_run_witness :
  Main.main Examples.local_dir Examples.local_dir Examples.abspath
    Examples.r2d_of_user_1000 Examples.no_config Examples.same_ports
    Main.ascii_isnumeric Main.ascii_int
    Examples.initialize Examples.failing_start false
    (Examples.args_with true false false false (Some ["8888"]) [] [] []
       ["jupyter"; "notebook"]) = ([], Py.SysExit 1).
Proof.
  eapply (main_publish_without_run Examples.local_dir Examples.local_dir
            Examples.abspath Examples.r2d_of_user_1000 Examples.no_config
            Examples.same_ports Main.ascii_isnumeric Main.ascii_int
            Examples.initialize Examples.failing_start).
  - reflexivity.
  - constructor.
  - reflexivity.
  - right. reflexivity.
Defined.
